(** * The Chrome AI session lifecycle of the notarIA front end

    A shallow embedding of [ChatService] (core/services/chat.service.ts), of
    the browser interface it drives (types/chrome-ai.d.ts) and of the part of
    [ChatComponent] (features/chat/chat.component.ts) that calls it.

    - JavaScript numbers are binary64 floats ([PrimFloat.float]); the token
      test of [ensureSession] is computed with the float operations the
      source uses.
    - A session object is a reference ([LanguageModelSession], a [nat]); what
      the browser does with it is the [Host] interface, of which the service
      is a client.  Every theorem about the service holds for every host.
    - A method is a function from the service's field and the host state to a
      [Run]: how it settled, the new field, the new host state and the calls
      it made on the host, in order.
    - An [async] method of the service runs to completion; the component's
      [ngOnInit] is split at its [await]s, where user events may come in.
    - [console] output, the HTTP calls of [apiService], toasts and scrolling
      are left out. *)

From Stdlib Require Import String List ZArith Bool Lia PrimFloat Uint63.
Import ListNotations.

Set Implicit Arguments.
Set Warnings "-inexact-float".

(** ** JavaScript values *)

(** What a [throw] or a rejected promise carries: an [Error] object. *)
Record JsError : Type := mkError { errName : string; errMessage : string }.

(** How a promise settles, or how a [try] block ends. *)
Inductive Settled (A : Type) : Type :=
| Fulfilled (a : A)
| Rejected (e : JsError).
Arguments Fulfilled {A} a.
Arguments Rejected {A} e.

Definition isFulfilled {A : Type} (r : Settled A) : bool :=
  match r with Fulfilled _ => true | Rejected _ => false end.

(** ** The Prompt API (types/chrome-ai.d.ts) *)

Module PromptApi.

Inductive Role : Type := system | user | assistant.

Record PromptMessage : Type := { role : Role; content : string }.

Record ExpectedInput : Type := { languages : option (list string) }.

(** Every field of [LanguageModelCreateOptions] is optional. *)
Record LanguageModelCreateOptions : Type := {
  temperature : option float;
  topK : option float;
  expectedInputs : option (list ExpectedInput);
  initialPrompts : option (list PromptMessage)
}.

(** A session object, by identity. *)
Definition LanguageModelSession : Type := nat.

(** The browser, seen from the page.  [W] is its state.  A promise-returning
    method gives how the promise settles and the state after the call;
    [destroy] is synchronous and returns nothing. *)
Class Host (W : Type) : Type := {
  hasWindow : W -> bool;
  hasLanguageModel : W -> bool;
  LanguageModel_availability : W -> Settled string * W;
  LanguageModel_create :
    LanguageModelCreateOptions -> W -> Settled LanguageModelSession * W;
  inputUsage : LanguageModelSession -> W -> float;
  inputQuota : LanguageModelSession -> W -> float;
  session_prompt : LanguageModelSession -> string -> W -> Settled string * W;
  session_clone : LanguageModelSession -> W -> Settled LanguageModelSession * W;
  session_destroy : LanguageModelSession -> W -> W
}.

(** One call on the host, with what it was given and how it settled. *)
Inductive Call : Type :=
| Availability (settled : Settled string)
| Create (options : LanguageModelCreateOptions)
         (settled : Settled LanguageModelSession)
| Prompt (session : LanguageModelSession) (message : string)
         (settled : Settled string)
| Clone (session : LanguageModelSession)
        (settled : Settled LanguageModelSession)
| Destroy (session : LanguageModelSession).

(** The [Create] calls of a trace. *)
Fixpoint createCalls (tr : list Call)
  : list (LanguageModelCreateOptions * Settled LanguageModelSession) :=
  match tr with
  | [] => []
  | Create o r :: tr' => (o, r) :: createCalls tr'
  | _ :: tr' => createCalls tr'
  end.

(** The sessions cloned in a trace. *)
Fixpoint cloneCalls (tr : list Call) : list LanguageModelSession :=
  match tr with
  | [] => []
  | Clone s _ :: tr' => s :: cloneCalls tr'
  | _ :: tr' => cloneCalls tr'
  end.

(** How many times [destroy()] was called on session [s]. *)
Fixpoint destroyCount (s : LanguageModelSession) (tr : list Call) : nat :=
  match tr with
  | [] => 0
  | Destroy s' :: tr' =>
      (if Nat.eqb s s' then 1 else 0) + destroyCount s tr'
  | _ :: tr' => destroyCount s tr'
  end.

(** How many times [destroy()] was called at all. *)
Fixpoint destroyCalls (tr : list Call) : nat :=
  match tr with
  | [] => 0
  | Destroy _ :: tr' => S (destroyCalls tr')
  | _ :: tr' => destroyCalls tr'
  end.

End PromptApi.
Import PromptApi.

(** ** ChatService (core/services/chat.service.ts) *)

Module ChatService.

(** The service's one mutable field, [private currentSession?: any];
    [None] is [undefined]. *)
Record ChatService : Type := { currentSession : option LanguageModelSession }.

Record AvailabilityResult : Type := {
  available : bool;
  status : string;
  canDownload : bool
}.

Section Methods.

Context {W : Type} {browser : Host W}.

(** What running a method gives. *)
Record Run (A : Type) : Type := mkRun {
  result : Settled A;
  service : ChatService;
  host : W;
  calls : list Call
}.

Definition M (A : Type) : Type := ChatService -> W -> Run A.

Definition ret {A : Type} (a : A) : M A :=
  fun svc w => mkRun (Fulfilled a) svc w [].

Definition throw {A : Type} (e : JsError) : M A :=
  fun svc w => mkRun (Rejected e) svc w [].

Definition bind {A B : Type} (m : M A) (k : A -> M B) : M B :=
  fun svc w =>
    match m svc w with
    | mkRun (Fulfilled a) svc1 w1 tr1 =>
        match k a svc1 w1 with
        | mkRun settled svc2 w2 tr2 => mkRun settled svc2 w2 (tr1 ++ tr2)
        end
    | mkRun (Rejected e) svc1 w1 tr1 => mkRun (Rejected e) svc1 w1 tr1
    end.

(** [try { m } catch (error) { handler error }] *)
Definition tryCatch {A : Type} (m : M A) (handler : JsError -> M A) : M A :=
  fun svc w =>
    match m svc w with
    | mkRun (Fulfilled a) svc1 w1 tr1 => mkRun (Fulfilled a) svc1 w1 tr1
    | mkRun (Rejected e) svc1 w1 tr1 =>
        match handler e svc1 w1 with
        | mkRun settled svc2 w2 tr2 => mkRun settled svc2 w2 (tr1 ++ tr2)
        end
    end.

(** [this.currentSession] *)
Definition getCurrentSession : M (option LanguageModelSession) :=
  fun svc w => mkRun (Fulfilled (currentSession svc)) svc w [].

(** [this.currentSession = v] *)
Definition setCurrentSession (v : option LanguageModelSession) : M unit :=
  fun _ w => mkRun (Fulfilled tt) {| currentSession := v |} w [].

(** [typeof LanguageModel !== 'undefined'] *)
Definition typeofLanguageModel : M bool :=
  fun svc w => mkRun (Fulfilled (hasLanguageModel w)) svc w [].

(** Naming the global where the browser does not define it throws. *)
Definition referenceError : JsError :=
  mkError "ReferenceError" "LanguageModel is not defined".

(** [await LanguageModel.create(options)] *)
Definition create (options : LanguageModelCreateOptions)
  : M LanguageModelSession :=
  fun svc w =>
    if hasLanguageModel w then
      let (r, w') := LanguageModel_create options w in
      mkRun r svc w' [Create options r]
    else mkRun (Rejected referenceError) svc w [].

(** [await LanguageModel.availability()] *)
Definition availability : M string :=
  fun svc w =>
    if hasLanguageModel w then
      let (r, w') := LanguageModel_availability w in
      mkRun r svc w' [Availability r]
    else mkRun (Rejected referenceError) svc w [].

(** [await session.prompt(message)] *)
Definition prompt (session : LanguageModelSession) (message : string)
  : M string :=
  fun svc w =>
    let (r, w') := session_prompt session message w in
    mkRun r svc w' [Prompt session message r].

(** [await session.clone()] *)
Definition clone (session : LanguageModelSession) : M LanguageModelSession :=
  fun svc w =>
    let (r, w') := session_clone session w in
    mkRun r svc w' [Clone session r].

(** [session.destroy()] *)
Definition destroy (session : LanguageModelSession) : M unit :=
  fun svc w => mkRun (Fulfilled tt) svc (session_destroy session w) [Destroy session].

(** [session.inputUsage] and [session.inputQuota] *)
Definition readInputUsage (session : LanguageModelSession) : M float :=
  fun svc w => mkRun (Fulfilled (inputUsage session w)) svc w [].

Definition readInputQuota (session : LanguageModelSession) : M float :=
  fun svc w => mkRun (Fulfilled (inputQuota session w)) svc w [].

End Methods.

Declare Scope js_scope.
Delimit Scope js_scope with js.
Notation "x <- m ;; k" := (bind m (fun x => k))
  (at level 61, m at next level, right associativity) : js_scope.
Notation "m ;; k" := (bind m (fun _ => k))
  (at level 61, right associativity) : js_scope.

(** The system prompt of chat.service.ts, lines 72 to 76. *)
Definition systemPrompt : string :=
"Eres un asistente legal especializado en servicios notariales de México.
Tu objetivo es proporcionar información clara y precisa sobre trámites notariales,
contratos, escrituras, testamentos, poderes notariales y actas constitutivas.
Responde siempre en español de manera profesional pero accesible.
Si no estás seguro de algo, recomienda consultar con un notario profesional.".

(** The argument of [LanguageModel.create], lines 67 to 78. *)
Definition sessionOptions : LanguageModelCreateOptions :=
  {| temperature := Some 0.8%float;
     topK := Some 3%float;
     expectedInputs := None;
     initialPrompts := Some [ {| role := system; content := systemPrompt |} ] |}.

(** Line 84: [(inputUsage / inputQuota) * 100]. *)
Definition usagePercent (usage quota : float) : float :=
  ((usage / quota) * 100)%float.

(** Line 88: [usagePercent >= 90]. *)
Definition refreshDue (usage quota : float) : bool :=
  (90 <=? usagePercent usage quota)%float.

Section Service.

Context {W : Type} {browser : Host W}.
Local Open Scope js_scope.

(** [private async ensureSession(): Promise<any>], lines 62 to 99.
    [session] is [this.currentSession] as it stands after the first
    [if]. *)
Definition ensureSession : M LanguageModelSession :=
  current <- getCurrentSession ;;
  session <- match current with
             | None =>
                 created <- create sessionOptions ;;
                 setCurrentSession (Some created) ;;
                 ret created
             | Some held => ret held
             end ;;
  usage <- readInputUsage session ;;
  quota <- readInputQuota session ;;
  if refreshDue usage quota then
    let oldSession := session in
    cloned <- clone oldSession ;;
    setCurrentSession (Some cloned) ;;
    destroy oldSession ;;
    ret cloned
  else ret session.

(** [destroySession(): void], lines 144 to 150. *)
Definition destroySession : M unit :=
  current <- getCurrentSession ;;
  match current with
  | Some held =>
      destroy held ;;
      setCurrentSession None
  | None => ret tt
  end.

Definition notAvailableError : JsError :=
  mkError "Error"
    "Chrome AI Prompt API not available. Please use Chrome Canary with flags enabled.".

(** [async getChromeAiResponse(userMessage)], lines 107 to 138. *)
Definition getChromeAiResponse (userMessage : string) : M string :=
  tryCatch
    (defined <- typeofLanguageModel ;;
     if negb defined then throw notAvailableError
     else
       session <- ensureSession ;;
       response <- prompt session userMessage ;;
       ret response)
    (fun error =>
       destroySession ;;
       throw error).

(** [async warmupSession(): Promise<void>], lines 156 to 165. *)
Definition warmupSession : M unit :=
  tryCatch
    (ensureSession ;; ret tt)
    (fun _ => ret tt).

(** [isChromeAiAvailable(): boolean], lines 171 to 181. *)
Definition isChromeAiAvailable : M bool :=
  fun svc w =>
    let windowExists := hasWindow w in
    let languageModelExists := windowExists && hasLanguageModel w in
    mkRun (Fulfilled languageModelExists) svc w [].

(** [async checkChromeAiAvailability()], lines 187 to 236. *)
Definition checkChromeAiAvailability : M AvailabilityResult :=
  tryCatch
    (defined <- typeofLanguageModel ;;
     if negb defined then
       ret {| available := false;
              status := "LanguageModel no encontrado. Usa Chrome Canary con flags habilitadas.";
              canDownload := false |}
     else
       availabilityStatus <- availability ;;
       if String.eqb availabilityStatus "available" then
         ret {| available := true;
                status := "Chrome AI está listo para usar";
                canDownload := false |}
       else if String.eqb availabilityStatus "downloadable"
               || String.eqb availabilityStatus "downloading" then
         ret {| available := false;
                status := "El modelo necesita descargarse. Intenta crear una sesión para iniciar la descarga.";
                canDownload := true |}
       else
         ret {| available := false;
                status := "Chrome AI no está disponible (status: "
                            ++ availabilityStatus ++ ")";
                canDownload := false |})
    (fun error =>
       ret {| available := false;
              status := "Error verificando disponibilidad: " ++ errMessage error;
              canDownload := false |}).

End Service.

End ChatService.
Import ChatService.

Arguments ensureSession : simpl never.
Arguments destroySession : simpl never.
Arguments getChromeAiResponse : simpl never.
Arguments warmupSession : simpl never.
Arguments checkChromeAiAvailability : simpl never.
Arguments refreshDue : simpl never.
Arguments sessionOptions : simpl never.


(** ** Token counts

    [inputUsage] and [inputQuota] count tokens.  The checker below compares
    the test of line 88, on such counts, with the exact ratio: it runs over
    every usage and quota up to [limit]. *)

Module TokenCounts.

(** A token count as a JavaScript number. *)
Definition tokens (n : Z) : float := PrimFloat.of_uint63 (Uint63.of_Z n).

Definition limit : Z := 10000.

(** The float test and [9 * q <= 10 * u] agree at [u], [q]. *)
Definition agrees (u q : int) : bool :=
  Bool.eqb (refreshDue (PrimFloat.of_uint63 u) (PrimFloat.of_uint63 q))
           (9 * q <=? 10 * u)%uint63.

(** They agree at [u], [u - 1], ..., [u - n]. *)
Fixpoint usagesAgree (n : nat) (u q : int) : bool :=
  match n with
  | O => agrees u q
  | S n' => agrees u q && usagesAgree n' (u - 1)%uint63 q
  end.

(** They agree at the quotas [q], [q - 1], ..., [q - n + 1], for the usages
    [top], ..., [top - width]. *)
Fixpoint quotasAgree (n width : nat) (top q : int) : bool :=
  match n with
  | O => true
  | S n' => usagesAgree width top q && quotasAgree n' width top (q - 1)%uint63
  end.

End TokenCounts.
Import TokenCounts.

(** ** A scripted browser

    A small host on which the methods can be run: sessions live in a list,
    a session's reference is its index, and three switches say how the next
    [create], [clone] and [prompt] settle. *)

Module Scripted.

Record SessionObject : Type := {
  usage : float;
  quota : float;
  destroyed : bool
}.

Record Browser : Type := {
  window : bool;
  languageModel : bool;
  availabilityStatus : string;
  sessions : list SessionObject;
  createSettles : Settled (float * float);
  cloneRejects : option JsError;
  promptRejects : option JsError
}.

Definition withSessions (b : Browser) (l : list SessionObject) : Browser :=
  {| window := window b;
     languageModel := languageModel b;
     availabilityStatus := availabilityStatus b;
     sessions := l;
     createSettles := createSettles b;
     cloneRejects := cloneRejects b;
     promptRejects := promptRejects b |}.

Definition invalidState : JsError :=
  mkError "InvalidStateError" "The session has been destroyed.".

Fixpoint markDestroyed (s : nat) (l : list SessionObject) : list SessionObject :=
  match l, s with
  | [], _ => []
  | o :: l', O => {| usage := usage o; quota := quota o; destroyed := true |} :: l'
  | o :: l', S s' => o :: markDestroyed s' l'
  end.

Fixpoint addUsage (s : nat) (d : float) (l : list SessionObject)
  : list SessionObject :=
  match l, s with
  | [], _ => []
  | o :: l', O =>
      {| usage := (usage o + d)%float; quota := quota o; destroyed := destroyed o |}
        :: l'
  | o :: l', S s' => o :: addUsage s' d l'
  end.

Definition scriptedCreate (_ : LanguageModelCreateOptions) (b : Browser)
  : Settled LanguageModelSession * Browser :=
  match createSettles b with
  | Fulfilled (u, q) =>
      (Fulfilled (length (sessions b)),
       withSessions b
         (sessions b ++ [ {| usage := u; quota := q; destroyed := false |} ]))
  | Rejected e => (Rejected e, b)
  end.

Definition scriptedClone (s : LanguageModelSession) (b : Browser)
  : Settled LanguageModelSession * Browser :=
  match cloneRejects b, nth_error (sessions b) s with
  | Some e, _ => (Rejected e, b)
  | None, Some o =>
      if destroyed o then (Rejected invalidState, b)
      else
        (Fulfilled (length (sessions b)),
         withSessions b
           (sessions b
              ++ [ {| usage := usage o; quota := quota o; destroyed := false |} ]))
  | None, None => (Rejected invalidState, b)
  end.

Definition scriptedPrompt (s : LanguageModelSession) (message : string)
  (b : Browser) : Settled string * Browser :=
  match promptRejects b, nth_error (sessions b) s with
  | Some e, _ => (Rejected e, b)
  | None, Some o =>
      if destroyed o then (Rejected invalidState, b)
      else
        (Fulfilled ("Respuesta a: " ++ message)%string,
         withSessions b (addUsage s 10 (sessions b)))
  | None, None => (Rejected invalidState, b)
  end.

#[global] Instance scriptedHost : Host Browser := {
  hasWindow := window;
  hasLanguageModel := languageModel;
  LanguageModel_availability := fun b => (Fulfilled (availabilityStatus b), b);
  LanguageModel_create := scriptedCreate;
  inputUsage := fun s b =>
    match nth_error (sessions b) s with Some o => usage o | None => nan end;
  inputQuota := fun s b =>
    match nth_error (sessions b) s with Some o => quota o | None => nan end;
  session_prompt := scriptedPrompt;
  session_clone := scriptedClone;
  session_destroy := fun s b => withSessions b (markDestroyed s (sessions b))
}.

(** A browser with the model ready and the given sessions. *)
Definition ready (l : list SessionObject) : Browser :=
  {| window := true;
     languageModel := true;
     availabilityStatus := "available";
     sessions := l;
     createSettles := Fulfilled (120%float, 6144%float);
     cloneRejects := None;
     promptRejects := None |}.

(** The same, with every [prompt] rejected with [e]. *)
Definition rejectingPrompts (e : JsError) (l : list SessionObject) : Browser :=
  {| window := true;
     languageModel := true;
     availabilityStatus := "available";
     sessions := l;
     createSettles := Fulfilled (120%float, 6144%float);
     cloneRejects := None;
     promptRejects := Some e |}.

(** The same, with every [create] rejected with [e]. *)
Definition rejectingCreate (e : JsError) (l : list SessionObject) : Browser :=
  {| window := true;
     languageModel := true;
     availabilityStatus := "available";
     sessions := l;
     createSettles := Rejected e;
     cloneRejects := None;
     promptRejects := None |}.

(** The same, with every [clone] rejected with [e]. *)
Definition rejectingClone (e : JsError) (l : list SessionObject) : Browser :=
  {| window := true;
     languageModel := true;
     availabilityStatus := "available";
     sessions := l;
     createSettles := Fulfilled (120%float, 6144%float);
     cloneRejects := Some e;
     promptRejects := None |}.

Definition live (u q : float) : SessionObject :=
  {| usage := u; quota := q; destroyed := false |}.

Definition quotaExceeded : JsError :=
  mkError "QuotaExceededError" "The input is too large.".

Definition notSupported : JsError :=
  mkError "NotSupportedError" "The model is not available on this device.".

End Scripted.

(** ** ChatComponent (features/chat/chat.component.ts)

    The signals the send guard reads, [ngOnInit], [sendMessage] and
    [ngOnDestroy].  The page is a state machine over the events the browser
    delivers: the lifecycle hooks, the user's typing and sending, and the
    settling of the promises [ngOnInit] awaits. *)

Module ChatComponent.

(** [String.prototype.trim] on UTF-8 text: the WhiteSpace and LineTerminator
    code points of ECMAScript, each as its bytes. *)
Definition whiteSpace : list (list nat) :=
  [ [9]; [10]; [11]; [12]; [13]; [32];
    [194; 160];
    [225; 154; 128];
    [226; 128; 128]; [226; 128; 129]; [226; 128; 130]; [226; 128; 131];
    [226; 128; 132]; [226; 128; 133]; [226; 128; 134]; [226; 128; 135];
    [226; 128; 136]; [226; 128; 137]; [226; 128; 138];
    [226; 128; 168]; [226; 128; 169]; [226; 128; 175];
    [226; 129; 159];
    [227; 128; 128];
    [239; 187; 191] ].

Fixpoint dropPrefix (p : list nat) (l : list Ascii.ascii)
  : option (list Ascii.ascii) :=
  match p, l with
  | [], _ => Some l
  | _ :: _, [] => None
  | n :: p', a :: l' =>
      if Nat.eqb n (Ascii.nat_of_ascii a) then dropPrefix p' l' else None
  end.

Fixpoint dropAny (ps : list (list nat)) (l : list Ascii.ascii)
  : option (list Ascii.ascii) :=
  match ps with
  | [] => None
  | p :: ps' =>
      match dropPrefix p l with
      | Some l' => Some l'
      | None => dropAny ps' l
      end
  end.

Fixpoint dropLeading (fuel : nat) (ps : list (list nat)) (l : list Ascii.ascii)
  : list Ascii.ascii :=
  match fuel with
  | O => l
  | S fuel' =>
      match dropAny ps l with
      | Some l' => dropLeading fuel' ps l'
      | None => l
      end
  end.

Definition trim (s : string) : string :=
  let l := list_ascii_of_string s in
  let l1 := dropLeading (length l) whiteSpace l in
  let l2 := dropLeading (length l1) (map (@rev nat) whiteSpace) (rev l1) in
  string_of_list_ascii (rev l2).

(** The signals read or written by the methods below. *)
Record ChatComponent : Type := {
  userInput : string;
  isSending : bool;
  chromeAiAvailable : bool;
  errorMessage : string
}.

(** [canSendMessage], lines 81 to 85. *)
Definition canSendMessage (c : ChatComponent) : bool :=
  negb (String.eqb (trim (userInput c)) "")
  && negb (isSending c)
  && chromeAiAvailable c.

(** Where [ngOnInit] stands: not called yet, suspended at the [await] of
    line 105 or of line 114 with how the awaited promise settles, or done. *)
Inductive InitStage : Type :=
| NotStarted
| AwaitingAvailability (settled : Settled AvailabilityResult)
| AwaitingWarmup (settled : Settled unit)
| Completed.

(** The methods of [chatService] the component invokes. *)
Inductive ServiceCall : Type :=
| IsChromeAiAvailable
| CheckChromeAiAvailability
| WarmupSession
| GetChromeAiResponse (userMessage : string)
| DestroySession.

Inductive Event : Type :=
| NgOnInit
| AvailabilitySettled
| WarmupSettled
| Input (text : string)
| SendMessage
| SaveSettled
| NgOnDestroy.

Section Page.

Context {W : Type} {browser : Host W}.

Record Page : Type := {
  component : ChatComponent;
  chat : ChatService;
  chrome : W;
  stage : InitStage;
  destroyed : bool;
  pendingSaves : nat;
  hostCalls : list Call;
  invoked : list ServiceCall
}.

Definition initialPage (w : W) : Page :=
  {| component := {| userInput := ""; isSending := false;
                     chromeAiAvailable := false; errorMessage := "" |};
     chat := {| currentSession := None |};
     chrome := w;
     stage := NotStarted;
     destroyed := false;
     pendingSaves := 0;
     hostCalls := [];
     invoked := [] |}.

(** The view takes the user's events once [ngOnInit] has been called and
    until the component is destroyed. *)
Definition interactive (p : Page) : bool :=
  match stage p with
  | NotStarted => false
  | _ => negb (destroyed p)
  end.

Definition setAvailability (c : ChatComponent) (ok : bool) (message : string)
  : ChatComponent :=
  {| userInput := userInput c; isSending := isSending c;
     chromeAiAvailable := ok; errorMessage := message |}.

Definition setSending (c : ChatComponent) (text : string) (sending : bool)
  : ChatComponent :=
  {| userInput := text; isSending := sending;
     chromeAiAvailable := chromeAiAvailable c;
     errorMessage := errorMessage c |}.

(** The page after the component's signals are replaced and a service method
    has run. *)
Definition after {A : Type} (p : Page) (c : ChatComponent) (r : Run A)
  (st : InitStage) (call : ServiceCall) : Page :=
  {| component := c;
     chat := service r;
     chrome := host r;
     stage := st;
     destroyed := destroyed p;
     pendingSaves := pendingSaves p;
     hostCalls := hostCalls p ++ calls r;
     invoked := invoked p ++ [call] |}.

Definition withComponent (p : Page) (c : ChatComponent) (st : InitStage) : Page :=
  {| component := c;
     chat := chat p;
     chrome := chrome p;
     stage := st;
     destroyed := destroyed p;
     pendingSaves := pendingSaves p;
     hostCalls := hostCalls p;
     invoked := invoked p |}.

Definition flagsMessage : string :=
"La API de Chrome AI no está disponible en este navegador. Por favor, usa Chrome Canary con las flags habilitadas:

1. chrome://flags/#prompt-api-for-gemini-nano
2. chrome://flags/#optimization-guide-on-device-model

Reinicia Chrome Canary después de habilitar las flags.".

Definition downloadMessage : string :=
  "Chrome AI necesita descargar el modelo. Por favor, espera unos minutos e intenta enviar un mensaje para iniciar la descarga.".

Definition checkFailedMessage : string :=
  "Error verificando Chrome AI. Verifica que las flags estén habilitadas en chrome://flags".

(** [ngOnInit], lines 94 to 105: up to the first [await]. *)
Definition ngOnInit (p : Page) : Page :=
  let basic := isChromeAiAvailable (chat p) (chrome p) in
  let basicCheck :=
    match result basic with Fulfilled b => b | Rejected _ => false end in
  let c := setAvailability (component p) basicCheck (errorMessage (component p)) in
  let p1 := after p c basic (stage p) IsChromeAiAvailable in
  if basicCheck then
    let r := checkChromeAiAvailability (chat p1) (chrome p1) in
    after p1 c r (AwaitingAvailability (result r)) CheckChromeAiAvailability
  else
    withComponent p1 (setAvailability c basicCheck flagsMessage) Completed.

(** The [catch] of lines 130 to 135. *)
Definition checkFailed (p : Page) : Page :=
  withComponent p (setAvailability (component p) false checkFailedMessage)
    Completed.

(** [ngOnInit], lines 107 to 129: from the first [await] to the second. *)
Definition afterAvailability (p : Page) (settled : Settled AvailabilityResult)
  : Page :=
  match settled with
  | Fulfilled availabilityResult =>
      if available availabilityResult then
        let c := setAvailability (component p) true "" in
        let r := warmupSession (chat p) (chrome p) in
        after p c r (AwaitingWarmup (result r)) WarmupSession
      else if canDownload availabilityResult then
        withComponent p (setAvailability (component p) false downloadMessage)
          Completed
      else
        withComponent p
          (setAvailability (component p) false (status availabilityResult))
          Completed
  | Rejected _ => checkFailed p
  end.

(** [ngOnInit], from the second [await] on. *)
Definition afterWarmup (p : Page) (settled : Settled unit) : Page :=
  match settled with
  | Fulfilled _ => withComponent p (component p) Completed
  | Rejected _ => checkFailed p
  end.

(** [sendMessage], lines 222 to 282; the backend call is a pending save. *)
Definition sendMessage (p : Page) : Page :=
  let userMessage := trim (userInput (component p)) in
  if String.eqb userMessage "" || negb (canSendMessage (component p)) then p
  else
    let c := setSending (component p) "" true in
    let r := getChromeAiResponse userMessage (chat p) (chrome p) in
    let p1 := after p c r (stage p) (GetChromeAiResponse userMessage) in
    match result r with
    | Fulfilled _ =>
        {| component := component p1; chat := chat p1; chrome := chrome p1;
           stage := stage p1; destroyed := destroyed p1;
           pendingSaves := S (pendingSaves p1);
           hostCalls := hostCalls p1; invoked := invoked p1 |}
    | Rejected _ => withComponent p1 (setSending c "" false) (stage p1)
    end.

(** The backend answered or failed: both handlers clear [isSending]. *)
Definition saveSettled (p : Page) : Page :=
  match pendingSaves p with
  | O => p
  | S n =>
      {| component := setSending (component p) (userInput (component p)) false;
         chat := chat p; chrome := chrome p; stage := stage p;
         destroyed := destroyed p; pendingSaves := n;
         hostCalls := hostCalls p; invoked := invoked p |}
  end.

(** [ngOnDestroy], lines 159 to 166. *)
Definition ngOnDestroy (p : Page) : Page :=
  let r := destroySession (chat p) (chrome p) in
  let p1 := after p (component p) r (stage p) DestroySession in
  {| component := component p1; chat := chat p1; chrome := chrome p1;
     stage := stage p1; destroyed := true; pendingSaves := pendingSaves p1;
     hostCalls := hostCalls p1; invoked := invoked p1 |}.

Definition step (p : Page) (ev : Event) : Page :=
  match ev, stage p with
  | NgOnInit, NotStarted => ngOnInit p
  | AvailabilitySettled, AwaitingAvailability settled => afterAvailability p settled
  | WarmupSettled, AwaitingWarmup settled => afterWarmup p settled
  | Input text, _ =>
      if interactive p
      then withComponent p
             (setSending (component p) text (isSending (component p))) (stage p)
      else p
  | SendMessage, _ => if interactive p then sendMessage p else p
  | SaveSettled, _ => saveSettled p
  | NgOnDestroy, _ => if interactive p then ngOnDestroy p else p
  | _, _ => p
  end.

Definition run (events : list Event) (p : Page) : Page :=
  fold_left step events p.

(** The send guard is open only after a warm-up call or while the
    availability check is pending. *)
Definition guarded (p : Page) : Prop :=
  chromeAiAvailable (component p) = true ->
  In WarmupSession (invoked p)
  \/ exists settled, stage p = AwaitingAvailability settled.

End Page.

(** Every call of [getChromeAiResponse] in [l] has a call of
    [warmupSession] before it. *)
Definition warmupPrecedesMessages (l : list ServiceCall) : Prop :=
  forall pre userMessage post,
    l = pre ++ GetChromeAiResponse userMessage :: post ->
    In WarmupSession pre.

End ChatComponent.
Import ChatComponent.

(** ** A client of the service

    Any caller of [ChatService]: it invokes the public methods one after
    another and goes on whatever each one answers. *)

Module ServiceUse.


(** 1 when the service holds [s], 0 otherwise. *)
Definition holding (svc : ChatService) (s : LanguageModelSession) : nat :=
  match currentSession svc with
  | Some held => if Nat.eqb s held then 1 else 0
  | None => 0
  end.

(** The [prompt] calls of a trace. *)
Fixpoint promptCalls (tr : list Call) : list (LanguageModelSession * string) :=
  match tr with
  | [] => []
  | Prompt s message _ :: tr' => (s, message) :: promptCalls tr'
  | _ :: tr' => promptCalls tr'
  end.

Section Use.

Context {W : Type} {browser : Host W}.




End Use.

End ServiceUse.
Import ServiceUse.

(** ** The backend calls of the chat (core/services/api.service.ts and the
    first three methods of chat.service.ts)

    An [Observable] that [HttpClient] returns is cold: the methods build the
    request, and nothing is sent before a subscriber comes.  A method's
    value is therefore the request it describes.  [environment.apiUrl] is
    not part of the sources and is a parameter. *)

Module Backend.

Inductive HttpMethod : Type := GET | POST | PUT | DELETE | PATCH.

(** [HttpParams], as the pairs it holds. *)
Definition HttpParams : Type := list (string * string).

Record HttpRequest (B : Type) : Type := {
  method : HttpMethod;
  url : string;
  params : option HttpParams;
  body : option B;
  withCredentials : bool;
  blobResponse : bool
}.
Arguments method {B} _.
Arguments url {B} _.
Arguments params {B} _.
Arguments body {B} _.
Arguments withCredentials {B} _.
Arguments blobResponse {B} _.

(** chat.model.ts *)
Record SendMessageRequest : Type := { message : string; response : string }.

Section ApiService.

Variable baseUrl : string.

(** [get(endpoint, params?)], lines 27 to 32. *)
Definition get {B : Type} (endpoint : string) (query : option HttpParams)
  : HttpRequest B :=
  {| method := GET; url := baseUrl ++ endpoint; params := query; body := None;
     withCredentials := true; blobResponse := false |}.

(** [post(endpoint, body)], lines 38 to 42. *)
Definition post {B : Type} (endpoint : string) (b : B) : HttpRequest B :=
  {| method := POST; url := baseUrl ++ endpoint; params := None;
     body := Some b;
     withCredentials := true; blobResponse := false |}.

(** [put(endpoint, body)], lines 48 to 52. *)
Definition put {B : Type} (endpoint : string) (b : B) : HttpRequest B :=
  {| method := PUT; url := baseUrl ++ endpoint; params := None;
     body := Some b;
     withCredentials := true; blobResponse := false |}.

(** [delete(endpoint)], lines 58 to 62. *)
Definition delete {B : Type} (endpoint : string) : HttpRequest B :=
  {| method := DELETE; url := baseUrl ++ endpoint; params := None;
     body := None;
     withCredentials := true; blobResponse := false |}.

(** [patch(endpoint, body)], lines 68 to 72. *)
Definition patch {B : Type} (endpoint : string) (b : B) : HttpRequest B :=
  {| method := PATCH; url := baseUrl ++ endpoint; params := None;
     body := Some b;
     withCredentials := true; blobResponse := false |}.

(** [getBlob(endpoint)], lines 79 to 85. *)
Definition getBlob {B : Type} (endpoint : string) : HttpRequest B :=
  {| method := GET; url := baseUrl ++ endpoint; params := None; body := None;
     withCredentials := true; blobResponse := true |}.

(** An optional string used as a condition: [undefined] and the empty
    string are falsy. *)
Definition truthy (sessionId : option string) : bool :=
  match sessionId with
  | Some (String _ _) => true
  | _ => false
  end.

(** The string a template literal puts for [sessionId]. *)
Definition interpolate (sessionId : option string) : string :=
  match sessionId with
  | Some text => text
  | None => "undefined"
  end.

(** [sendMessage(request)], chat.service.ts lines 27 to 29. *)
Definition sendMessage (request : SendMessageRequest)
  : HttpRequest SendMessageRequest :=
  post "/chat/message" request.

(** The endpoint of [getHistory], lines 36 to 38. *)
Definition historyEndpoint (sessionId : option string) : string :=
  if truthy sessionId
  then "/chat/history?session_id=" ++ interpolate sessionId
  else "/chat/history".

(** [getHistory(sessionId?)], lines 35 to 40. *)
Definition getHistory (sessionId : option string)
  : HttpRequest SendMessageRequest :=
  get (historyEndpoint sessionId) None.

(** The endpoint of [clearChat], lines 51 to 53. *)
Definition clearEndpoint (sessionId : option string) : string :=
  if truthy sessionId
  then "/chat/clear?session_id=" ++ interpolate sessionId
  else "/chat/clear".

Context {W : Type} {browser : Host W}.

(** [clearChat(sessionId?)], lines 47 to 55: the session is destroyed when
    the method is called, the request is what it returns. *)
Definition clearChat (sessionId : option string)
  : M (HttpRequest SendMessageRequest) :=
  bind destroySession (fun _ => ret (delete (clearEndpoint sessionId))).

End ApiService.

End Backend.

(** ** The keyboard (chat.component.ts, lines 343 to 348) *)

Module Keyboard.

Record KeyboardEvent : Type := { key : string; shiftKey : bool }.

Section Keys.

Context {W : Type} {browser : Host W}.

(** [onEnterPress(event)]: the page after the handler, and whether
    [event.preventDefault()] was called. *)
Definition onEnterPress (event : KeyboardEvent) (p : @Page W) : @Page W * bool :=
  if String.eqb (key event) "Enter" && negb (shiftKey event)
  then (ChatComponent.sendMessage p, true)
  else (p, false).

End Keys.

(** The bytes of a run of white space: each element is one of the
    [whiteSpace] sequences. *)
Definition whiteSpaceBytes (ws : list (list nat)) : list Ascii.ascii :=
  concat (map (map Ascii.ascii_of_nat) ws).

(** A text that consists of white space only. *)
Definition blank (text : string) : Prop :=
  exists ws : list (list nat),
    Forall (fun p => In p whiteSpace) ws /\
    list_ascii_of_string text = whiteSpaceBytes ws.

End Keyboard.
Import Keyboard.

(** ** The conversation on the page (chat.component.ts, the signals
    [messages], [sessionId] and [isLoadingHistory], and the handlers of the
    backend's answers) *)

Module Conversation.

Inductive MessageRole : Type := user | assistant.

(** chat.model.ts *)
Record ChatMessage : Type := {
  id : string;
  session_id : string;
  role : MessageRole;
  content : string;
  created_at : string
}.

(** [SendMessageResponse]; [saved_session_id] is its [session_id]. *)
Record SendMessageResponse : Type := {
  user_message : ChatMessage;
  assistant_message : ChatMessage;
  saved_session_id : string
}.

(** [ChatHistoryResponse]; the fields are its [session_id] and
    [messages]. *)
Record ChatHistoryResponse : Type := {
  history_session_id : string;
  history_messages : list ChatMessage
}.

(** What [messageService.add] is given. *)
Record Toast : Type := { severity : string; summary : string; detail : string }.

Record Signals : Type := {
  messages : list ChatMessage;
  sessionId : string;
  isLoadingHistory : bool;
  shouldScrollToBottom : bool
}.

(** [hasMessages], line 87. *)
Definition hasMessages (c : Signals) : bool := Nat.ltb 0 (length (messages c)).

(** A string used as a condition. *)
Definition nonEmpty (text : string) : bool :=
  match text with
  | EmptyString => false
  | String _ _ => true
  end.

(** [loadHistory], lines 181 to 184: the flag is raised and the history is
    asked for, with no session id. *)
Definition loadHistory (baseUrl : string) (c : Signals)
  : Signals * Backend.HttpRequest Backend.SendMessageRequest :=
  ({| messages := messages c; sessionId := sessionId c;
      isLoadingHistory := true;
      shouldScrollToBottom := shouldScrollToBottom c |},
   Backend.getHistory baseUrl None).

(** The [next] handler of [loadHistory], lines 185 to 190. *)
Definition historyLoaded (response : ChatHistoryResponse) (c : Signals)
  : Signals :=
  {| messages := history_messages response;
     sessionId := history_session_id response;
     isLoadingHistory := false;
     shouldScrollToBottom := true |}.


(** The [next] handler of the save in [sendMessage], lines 245 to 262. *)
Definition saved (response : SendMessageResponse) (c : Signals) : Signals :=
  {| messages :=
       messages c ++ [user_message response; assistant_message response];
     sessionId :=
       if nonEmpty (saved_session_id response)
       then saved_session_id response
       else sessionId c;
     isLoadingHistory := isLoadingHistory c;
     shouldScrollToBottom := true |}.

(** The conversation after the saves of [responses], in order. *)
Definition savedAll (responses : list SendMessageResponse) (c : Signals)
  : Signals :=
  fold_left (fun c' response => saved response c') responses c.

(** [clearChat], once the user has confirmed: lines 294 to 297.
    [currentSessionId || undefined] is [None] for the empty string. *)
Definition clearConfirmed {W : Type} {browser : Host W} (baseUrl : string)
  (c : Signals) : M (Backend.HttpRequest Backend.SendMessageRequest) :=
  let currentSessionId := sessionId c in
  Backend.clearChat baseUrl
    (if nonEmpty currentSessionId then Some currentSessionId else None).

(** The [next] handler of [clearChat], lines 298 to 306. *)
Definition cleared (c : Signals) : Signals * list Toast :=
  ({| messages := []; sessionId := "";
      isLoadingHistory := isLoadingHistory c;
      shouldScrollToBottom := shouldScrollToBottom c |},
   [ {| severity := "success";
        summary := "Éxito";
        detail := "Historial de chat borrado correctamente" |} ]).

End Conversation.

(** * Properties *)

(** ** Runs on the scripted browser *)

Example refreshDue_at_the_threshold :
  refreshDue 9 10 = true /\ refreshDue 5530 6144 = true /\
  refreshDue 5529 6144 = false /\ refreshDue 0 0 = false /\
  refreshDue 1 0 = true.
Proof. repeat split. Qed.

Example first_message_creates_the_session :
  calls (getChromeAiResponse "hola" {| currentSession := None |}
           (Scripted.ready [])) =
    [Create sessionOptions (Fulfilled 0);
     Prompt 0 "hola" (Fulfilled "Respuesta a: hola"%string)].
Proof. reflexivity. Qed.

Example rejected_clone_keeps_the_old_session :
  let r := ensureSession {| currentSession := Some 0 |}
             (Scripted.rejectingClone Scripted.notSupported
                [Scripted.live 6000 6144]) in
  result r = Rejected Scripted.notSupported /\
  currentSession (service r) = Some 0 /\
  calls r = [Clone 0 (Rejected Scripted.notSupported)].
Proof. repeat split. Qed.

Example missing_global_is_reported :
  let r := getChromeAiResponse "hola" {| currentSession := None |}
             {| Scripted.window := true;
                Scripted.languageModel := false;
                Scripted.availabilityStatus := "unavailable";
                Scripted.sessions := [];
                Scripted.createSettles := Rejected Scripted.notSupported;
                Scripted.cloneRejects := None;
                Scripted.promptRejects := None |} in
  result r = Rejected notAvailableError /\ calls r = [].
Proof. repeat split. Qed.

Example a_whole_visit :
  let p := run [NgOnInit; AvailabilitySettled; WarmupSettled;
                Input "  hola  "; SendMessage; SaveSettled; NgOnDestroy]
               (initialPage (Scripted.ready [])) in
  invoked p =
    [IsChromeAiAvailable; CheckChromeAiAvailability; WarmupSession;
     GetChromeAiResponse "hola"; DestroySession] /\
  hostCalls p =
    [Availability (Fulfilled "available"%string);
     Create sessionOptions (Fulfilled 0);
     Prompt 0 "hola" (Fulfilled "Respuesta a: hola"%string);
     Destroy 0] /\
  chat p = {| currentSession := None |}.
Proof. repeat split. Qed.

Section ServiceFacts.

Context {W : Type} {browser : Host W}.

Lemma ensureSession_held (svc : ChatService) (w : W) (held : LanguageModelSession) :
  currentSession svc = Some held ->
  ensureSession svc w =
    if refreshDue (inputUsage held w) (inputQuota held w) then
      match session_clone held w with
      | (Fulfilled cloned, w') =>
          mkRun (Fulfilled cloned) {| currentSession := Some cloned |}
                (session_destroy held w')
                [Clone held (Fulfilled cloned); Destroy held]
      | (Rejected e, w') =>
          mkRun (Rejected e) svc w' [Clone held (Rejected e)]
      end
    else mkRun (Fulfilled held) svc w [].
Proof.
  intros Hheld.
  unfold ensureSession, bind, getCurrentSession; cbn -[refreshDue].
  rewrite Hheld; cbn -[refreshDue].
  destruct (refreshDue (inputUsage held w) (inputQuota held w)); [| reflexivity].
  unfold clone; cbn.
  destruct (session_clone held w) as [[cloned | e] w']; reflexivity.
Qed.

Lemma ensureSession_none (svc : ChatService) (w : W) :
  currentSession svc = None ->
  ensureSession svc w =
    if hasLanguageModel w then
      match LanguageModel_create sessionOptions w with
      | (Fulfilled created, w') =>
          let r := ensureSession {| currentSession := Some created |} w' in
          mkRun (result r) (service r) (host r)
                (Create sessionOptions (Fulfilled created) :: calls r)
      | (Rejected e, w') =>
          mkRun (Rejected e) svc w' [Create sessionOptions (Rejected e)]
      end
    else mkRun (Rejected referenceError) svc w [].
Proof.
  intros Hnone.
  unfold ensureSession, bind, getCurrentSession; cbn -[refreshDue sessionOptions].
  rewrite Hnone; cbn -[refreshDue sessionOptions].
  unfold create.
  destruct (hasLanguageModel w); [| reflexivity].
  destruct (LanguageModel_create sessionOptions w) as [[created | e] w'];
    cbn -[refreshDue sessionOptions]; [| reflexivity].
  destruct (refreshDue (inputUsage created w') (inputQuota created w'));
    [| reflexivity].
  unfold clone.
  destruct (session_clone created w') as [[cloned | e] w'']; reflexivity.
Qed.

(** A run of [ensureSession] that starts with a session held calls
    [create] on nothing. *)
Lemma ensureSession_held_no_create (svc : ChatService) (w : W)
  (held : LanguageModelSession) :
  currentSession svc = Some held ->
  createCalls (calls (ensureSession svc w)) = [].
Proof.
  intros Hheld. rewrite (ensureSession_held svc w Hheld).
  destruct (refreshDue _ _); [| reflexivity].
  destruct (session_clone held w) as [[cloned | e] w']; reflexivity.
Qed.

(** The session [ensureSession] hands out is the one it leaves in the
    field. *)
Lemma ensureSession_fulfilled_current (svc : ChatService) (w : W)
  (session : LanguageModelSession) :
  result (ensureSession svc w) = Fulfilled session ->
  currentSession (service (ensureSession svc w)) = Some session.
Proof.
  assert (Hheld : forall svc0 w0 held,
             currentSession svc0 = Some held ->
             result (ensureSession svc0 w0) = Fulfilled session ->
             currentSession (service (ensureSession svc0 w0)) = Some session).
  { intros svc0 w0 held Hc. rewrite (ensureSession_held svc0 w0 Hc).
    destruct (refreshDue _ _).
    - destruct (session_clone held w0) as [[cloned | e] w']; cbn; congruence.
    - cbn. congruence. }
  destruct (currentSession svc) as [held |] eqn:Hc.
  - apply (Hheld svc w held Hc).
  - rewrite (ensureSession_none svc w Hc).
    destruct (hasLanguageModel w); [| discriminate].
    destruct (LanguageModel_create sessionOptions w) as [[created | e] w'];
      [| discriminate].
    cbn. apply (Hheld _ w' created). reflexivity.
Qed.

Lemma destroySession_run (svc : ChatService) (w : W) :
  destroySession svc w =
    match currentSession svc with
    | Some held =>
        mkRun (Fulfilled tt) {| currentSession := None |}
              (session_destroy held w) [Destroy held]
    | None => mkRun (Fulfilled tt) svc w []
    end.
Proof.
  unfold destroySession, bind, getCurrentSession; cbn.
  destruct (currentSession svc); reflexivity.
Qed.

Lemma destroySession_no_create (svc : ChatService) (w : W) :
  createCalls (calls (destroySession svc w)) = [].
Proof.
  rewrite destroySession_run. destruct (currentSession svc); reflexivity.
Qed.

Lemma warmupSession_run (svc : ChatService) (w : W) :
  warmupSession svc w =
    let r := ensureSession svc w in
    mkRun (Fulfilled tt) (service r) (host r) (calls r).
Proof.
  unfold warmupSession, tryCatch, bind, ret; cbn.
  destruct (ensureSession svc w) as [[s | e] svc' w' tr]; cbn;
    rewrite ?app_nil_r; reflexivity.
Qed.

Lemma getChromeAiResponse_run (userMessage : string) (svc : ChatService) (w : W) :
  getChromeAiResponse userMessage svc w =
    if hasLanguageModel w then
      let r := ensureSession svc w in
      match result r with
      | Fulfilled session =>
          match session_prompt session userMessage (host r) with
          | (Fulfilled response, w') =>
              mkRun (Fulfilled response) (service r) w'
                    (calls r ++ [Prompt session userMessage (Fulfilled response)])
          | (Rejected e, w') =>
              let d := destroySession (service r) w' in
              mkRun (Rejected e) (service d) (host d)
                    ((calls r ++ [Prompt session userMessage (Rejected e)])
                       ++ calls d)
          end
      | Rejected e =>
          let d := destroySession (service r) (host r) in
          mkRun (Rejected e) (service d) (host d) (calls r ++ calls d)
      end
    else
      let d := destroySession svc w in
      mkRun (Rejected notAvailableError) (service d) (host d) (calls d).
Proof.
  unfold getChromeAiResponse, tryCatch, bind, typeofLanguageModel, throw, ret;
    cbn.
  destruct (hasLanguageModel w); cbn.
  2: { rewrite destroySession_run.
       destruct (currentSession svc); cbn; rewrite ?app_nil_r; reflexivity. }
  destruct (ensureSession svc w) as [[session | e] svc' w' tr]; cbn.
  2: { rewrite destroySession_run.
       destruct (currentSession svc'); cbn; rewrite ?app_nil_r; reflexivity. }
  unfold prompt.
  destruct (session_prompt session userMessage w') as [[response | e] w''];
    cbn.
  - rewrite ?app_nil_r. reflexivity.
  - rewrite destroySession_run.
    destruct (currentSession svc'); cbn; rewrite ?app_nil_r; reflexivity.
Qed.

End ServiceFacts.

(** ** Refresh and reuse *)

Section Refresh.

Context {W : Type} {browser : Host W}.

(** C1.  [ensureSession] tests the held session's [inputUsage / inputQuota]
    (as the percentage [refreshDue] computes, at least 90).  When the test
    holds and [clone()] resolves, the clone is stored as the current session,
    [destroy()] is called on the old session, and the clone is what
    [ensureSession] returns; nothing else is called on the browser.
    [getChromeAiResponse] runs this before it prompts, so the prompt goes to
    the clone. *)
Theorem ensureSession_refreshes_at_ninety_percent
  (svc : ChatService) (w w' : W) (old cloned : LanguageModelSession) :
  currentSession svc = Some old ->
  refreshDue (inputUsage old w) (inputQuota old w) = true ->
  session_clone old w = (Fulfilled cloned, w') ->
  let r := ensureSession svc w in
  result r = Fulfilled cloned /\
  currentSession (service r) = Some cloned /\
  host r = session_destroy old w' /\
  calls r = [Clone old (Fulfilled cloned); Destroy old] /\
  destroyCount old (calls r) = 1 /\
  (forall userMessage : string,
      hasLanguageModel w = true ->
      exists settled rest,
        calls (getChromeAiResponse userMessage svc w) =
          Clone old (Fulfilled cloned) :: Destroy old
            :: Prompt cloned userMessage settled :: rest).
Proof.
  intros Hheld Hdue Hclone r. subst r.
  rewrite (ensureSession_held svc w Hheld), Hdue, Hclone. cbn.
  rewrite Nat.eqb_refl.
  repeat split.
  intros userMessage Hlm.
  rewrite getChromeAiResponse_run, Hlm.
  rewrite (ensureSession_held svc w Hheld), Hdue, Hclone. cbn.
  destruct (session_prompt cloned userMessage (session_destroy old w'))
    as [[response | e] w'']; cbn.
  - exists (Fulfilled response), []. reflexivity.
  - exists (Rejected e), [Destroy cloned]. reflexivity.
Qed.

(** C7.  With a session held and the test of line 88 false, [ensureSession]
    returns that very session and changes nothing: the field and the browser
    are as before and no call is made, so nothing is created, cloned or
    destroyed. *)
Theorem ensureSession_reuses_below_ninety_percent
  (svc : ChatService) (w : W) (held : LanguageModelSession) :
  currentSession svc = Some held ->
  refreshDue (inputUsage held w) (inputQuota held w) = false ->
  let r := ensureSession svc w in
  result r = Fulfilled held /\
  service r = svc /\
  host r = w /\
  calls r = [] /\
  createCalls (calls r) = [] /\ cloneCalls (calls r) = [] /\
  destroyCalls (calls r) = 0.
Proof.
  intros Hheld Hdue r. subst r.
  rewrite (ensureSession_held svc w Hheld), Hdue.
  repeat split.
Qed.

End Refresh.

Lemma ensureSession_refreshes_at_ninety_percent_witness :
  let svc := {| currentSession := Some 0 |} in
  let w := Scripted.ready [Scripted.live 5530 6144] in
  let r := ensureSession svc w in
  (currentSession svc = Some 0 /\
   refreshDue (inputUsage 0 w) (inputQuota 0 w) = true /\
   fst (session_clone 0 w) = Fulfilled 1) /\
  result r = Fulfilled 1 /\
  currentSession (service r) = Some 1 /\
  calls r = [Clone 0 (Fulfilled 1); Destroy 0].
Proof.
  cbv zeta. split; [repeat split |].
  pose proof (@ensureSession_refreshes_at_ninety_percent
                Scripted.Browser Scripted.scriptedHost
                {| currentSession := Some 0 |}
                (Scripted.ready [Scripted.live 5530 6144])
                _ 0 1 eq_refl eq_refl eq_refl) as H.
  cbv zeta in H. destruct H as (H1 & H2 & _ & H4 & _).
  exact (conj H1 (conj H2 H4)).
Defined.

Lemma ensureSession_reuses_below_ninety_percent_witness :
  let svc := {| currentSession := Some 0 |} in
  let w := Scripted.ready [Scripted.live 5529 6144] in
  let r := ensureSession svc w in
  (currentSession svc = Some 0 /\
   refreshDue (inputUsage 0 w) (inputQuota 0 w) = false) /\
  result r = Fulfilled 0 /\ service r = svc /\ host r = w /\ calls r = [].
Proof.
  cbv zeta. split; [repeat split |].
  pose proof (@ensureSession_reuses_below_ninety_percent
                Scripted.Browser Scripted.scriptedHost
                {| currentSession := Some 0 |}
                (Scripted.ready [Scripted.live 5529 6144])
                0 eq_refl eq_refl) as H.
  cbv zeta in H. destruct H as (H1 & H2 & H3 & H4 & _).
  exact (conj H1 (conj H2 (conj H3 H4))).
Defined.

(** ** Creation *)

Section Creation.

Context {W : Type} {browser : Host W}.

(** C2.  [ensureSession] creates lazily.  Called with no session held (and
    the [LanguageModel] global defined, which both callers establish), it
    calls [LanguageModel.create] exactly once, with the fixed options: the
    system prompt, temperature 0.8 and topK 3.  Called with a session held,
    it does not call [create]. *)
Theorem ensureSession_creates_lazily (svc : ChatService) (w : W) :
  let r := ensureSession svc w in
  (currentSession svc = None ->
   hasLanguageModel w = true ->
   createCalls (calls r) =
     [(sessionOptions, fst (LanguageModel_create sessionOptions w))] /\
   temperature sessionOptions = Some 0.8%float /\
   topK sessionOptions = Some 3%float /\
   initialPrompts sessionOptions =
     Some [ {| role := system; content := systemPrompt |} ]) /\
  (currentSession svc <> None -> createCalls (calls r) = []).
Proof.
  intros r. subst r. split.
  - intros Hnone Hlm. split; [| repeat split].
    rewrite (ensureSession_none svc w Hnone), Hlm.
    destruct (LanguageModel_create sessionOptions w) as [[created | e] w'];
      cbn; [| reflexivity].
    rewrite (ensureSession_held_no_create {| currentSession := Some created |}
               w' (held := created) eq_refl).
    reflexivity.
  - intros Hsome. destruct (currentSession svc) as [held |] eqn:Hc;
      [| congruence].
    apply (ensureSession_held_no_create svc w Hc).
Qed.

End Creation.

Lemma ensureSession_creates_lazily_witness :
  let fresh := {| currentSession := None |} in
  let holding := {| currentSession := Some 0 |} in
  let w := Scripted.ready [Scripted.live 120 6144] in
  (currentSession fresh = None /\ hasLanguageModel w = true /\
   currentSession holding <> None) /\
  createCalls (calls (ensureSession fresh w)) = [(sessionOptions, Fulfilled 1)] /\
  createCalls (calls (ensureSession holding w)) = [].
Proof.
  cbv zeta. split; [repeat split; discriminate |]. split.
  - exact (proj1 (proj1 (@ensureSession_creates_lazily
                           Scripted.Browser Scripted.scriptedHost
                           {| currentSession := None |}
                           (Scripted.ready [Scripted.live 120 6144]))
                    eq_refl eq_refl)).
  - apply (proj2 (@ensureSession_creates_lazily
                    Scripted.Browser Scripted.scriptedHost
                    {| currentSession := Some 0 |}
                    (Scripted.ready [Scripted.live 120 6144]))).
    discriminate.
Defined.

(** ** Teardown *)

Section Teardown.

Context {W : Type} {browser : Host W}.

(** C4.  [destroySession] is the teardown call.  From every state it
    resolves and leaves no session held; when a session was held, the calls
    it makes are exactly one [destroy()], on that session, and when none was
    held it makes no call.  [ngOnDestroy] is a caller: it invokes
    [destroySession] and leaves the service with no session. *)
Theorem destroySession_tears_down (svc : ChatService) (w : W) :
  let r := destroySession svc w in
  result r = Fulfilled tt /\
  currentSession (service r) = None /\
  calls r =
    match currentSession svc with
    | Some held => [Destroy held]
    | None => []
    end /\
  destroyCalls (calls r) =
    match currentSession svc with Some _ => 1 | None => 0 end /\
  match currentSession svc with
  | Some held => destroyCount held (calls r) = 1
  | None => True
  end /\
  forall p : @Page W,
    invoked (ngOnDestroy p) = invoked p ++ [DestroySession] /\
    currentSession (chat (ngOnDestroy p)) = None /\
    hostCalls (ngOnDestroy p) =
      hostCalls p
        ++ match currentSession (chat p) with
           | Some held => [Destroy held]
           | None => []
           end.
Proof.
  intros r. subst r. rewrite destroySession_run.
  destruct (currentSession svc) as [held |] eqn:Hc; cbn;
    rewrite ?Nat.eqb_refl; repeat split; try assumption;
    unfold ngOnDestroy; cbn; rewrite destroySession_run;
    destruct (currentSession (chat p)) eqn:Hp; cbn; congruence.
Qed.

(** C9.  [destroySession] is idempotent.  With no session held it changes
    nothing and calls nothing.  Run twice in a row, the second run changes
    nothing and calls nothing, so the state is the one the first run left,
    and over both runs [destroy()] is called at most once on any session. *)
Theorem destroySession_idempotent (svc : ChatService) (w : W) :
  let once := destroySession svc w in
  let twice := destroySession (service once) (host once) in
  (currentSession svc = None -> once = mkRun (Fulfilled tt) svc w []) /\
  result twice = result once /\
  service twice = service once /\
  host twice = host once /\
  calls twice = [] /\
  destroyCalls (calls once ++ calls twice) <= 1 /\
  (forall s, destroyCount s (calls once ++ calls twice) <= 1).
Proof.
  intros once twice. subst once twice.
  rewrite (destroySession_run svc w).
  destruct (currentSession svc) as [held |] eqn:Hc; cbn;
    rewrite destroySession_run; cbn; rewrite ?Hc; cbn.
  - repeat split; try discriminate; auto.
    intros s. destruct (Nat.eqb s held); cbn; lia.
  - repeat split; auto.
Qed.

End Teardown.

Lemma destroySession_idempotent_witness :
  let svc := {| currentSession := None |} in
  let w := Scripted.ready [] in
  currentSession svc = None /\ destroySession svc w = mkRun (Fulfilled tt) svc w [].
Proof.
  split; [reflexivity |].
  exact (proj1 (@destroySession_idempotent
                  Scripted.Browser Scripted.scriptedHost
                  {| currentSession := None |} (Scripted.ready []))
           eq_refl).
Defined.

(** ** Generation *)

Section Generation.

Context {W : Type} {browser : Host W}.

(** C3.  When [session.prompt(userMessage)] rejects inside
    [getChromeAiResponse], whatever the error, the service calls [destroy()]
    on the stored session, holds no session afterwards and rejects with the
    same error; the next call then starts by creating a session. *)
Theorem getChromeAiResponse_discards_session_on_error
  (userMessage : string) (svc : ChatService) (w w' : W)
  (session : LanguageModelSession) (e : JsError) :
  hasLanguageModel w = true ->
  result (ensureSession svc w) = Fulfilled session ->
  session_prompt session userMessage (host (ensureSession svc w))
    = (Rejected e, w') ->
  let r := getChromeAiResponse userMessage svc w in
  result r = Rejected e /\
  currentSession (service r) = None /\
  host r = session_destroy session w' /\
  calls r =
    calls (ensureSession svc w)
      ++ [Prompt session userMessage (Rejected e); Destroy session] /\
  (forall nextMessage : string,
      hasLanguageModel (host r) = true ->
      exists settled rest,
        calls (getChromeAiResponse nextMessage (service r) (host r)) =
          Create sessionOptions settled :: rest).
Proof.
  intros Hlm Hready Hprompt r. subst r.
  pose proof (ensureSession_fulfilled_current svc w Hready) as Hcur.
  rewrite getChromeAiResponse_run, Hlm. cbv zeta.
  rewrite Hready, Hprompt, destroySession_run, Hcur. cbn.
  rewrite <- app_assoc. cbn.
  repeat split.
  intros nextMessage Hnext.
  rewrite getChromeAiResponse_run, Hnext. cbv zeta.
  rewrite (ensureSession_none {| currentSession := None |}
             (session_destroy session w') eq_refl), Hnext.
  destruct (LanguageModel_create sessionOptions (session_destroy session w'))
    as [[created | e'] w''].
  - cbn.
    destruct (result (ensureSession {| currentSession := Some created |} w''))
      as [next | e'].
    + destruct (session_prompt next nextMessage _) as [[response | e'] w3];
        cbn; eexists; eexists; reflexivity.
    + cbn. eexists; eexists; reflexivity.
  - cbn. eexists; eexists; reflexivity.
Qed.

(** Any rejection of [getChromeAiResponse] leaves no session held. *)
Lemma getChromeAiResponse_rejected_no_session
  (userMessage : string) (svc : ChatService) (w : W) (e : JsError) :
  result (getChromeAiResponse userMessage svc w) = Rejected e ->
  currentSession (service (getChromeAiResponse userMessage svc w)) = None.
Proof.
  assert (Hclear : forall svc0 w0,
             currentSession (service (destroySession svc0 w0)) = None).
  { intros svc0 w0. rewrite destroySession_run.
    destruct (currentSession svc0) eqn:Hc; [reflexivity | exact Hc]. }
  rewrite getChromeAiResponse_run.
  destruct (hasLanguageModel w); cbv zeta.
  - destruct (result (ensureSession svc w)) as [session | e0].
    + destruct (session_prompt session userMessage _) as [[response | e1] w'];
        cbn; [discriminate |].
      intros _. apply Hclear.
    + cbn. intros _. apply Hclear.
  - cbn. intros _. apply Hclear.
Qed.

(** C8.  When [getChromeAiResponse] resolves, the string it resolves with is
    the one [prompt(userMessage)] resolved with, on the session
    [ensureSession] returned; that [prompt] is the last call made and the
    service keeps the session. *)
Theorem getChromeAiResponse_returns_prompt_response
  (userMessage response : string) (svc : ChatService) (w : W) :
  let r := getChromeAiResponse userMessage svc w in
  let ready := ensureSession svc w in
  result r = Fulfilled response ->
  exists session : LanguageModelSession,
    result ready = Fulfilled session /\
    fst (session_prompt session userMessage (host ready)) = Fulfilled response /\
    calls r = calls ready ++ [Prompt session userMessage (Fulfilled response)] /\
    host r = snd (session_prompt session userMessage (host ready)) /\
    currentSession (service r) = Some session.
Proof.
  intros r ready. subst r ready.
  rewrite getChromeAiResponse_run.
  destruct (hasLanguageModel w); cbv zeta; [| discriminate].
  destruct (result (ensureSession svc w)) as [session | e] eqn:Hready;
    [| discriminate].
  pose proof (ensureSession_fulfilled_current svc w Hready) as Hcur.
  destruct (session_prompt session userMessage (host (ensureSession svc w)))
    as [[answer | e] w'] eqn:Hprompt; cbn; [| discriminate].
  intros Hres. injection Hres as ->.
  exists session. rewrite Hprompt. repeat split. exact Hcur.
Qed.

End Generation.

Lemma getChromeAiResponse_discards_session_on_error_witness :
  let svc := {| currentSession := Some 0 |} in
  let w :=
    Scripted.rejectingPrompts Scripted.quotaExceeded [Scripted.live 6100 6144] in
  let r := getChromeAiResponse "¿Qué es un poder notarial?" svc w in
  (hasLanguageModel w = true /\ result (ensureSession svc w) = Fulfilled 1) /\
  result r = Rejected Scripted.quotaExceeded /\
  currentSession (service r) = None /\
  calls r =
    [Clone 0 (Fulfilled 1); Destroy 0;
     Prompt 1 "¿Qué es un poder notarial?" (Rejected Scripted.quotaExceeded);
     Destroy 1].
Proof.
  cbv zeta. split; [split; reflexivity |].
  pose proof (@getChromeAiResponse_discards_session_on_error
                Scripted.Browser Scripted.scriptedHost
                "¿Qué es un poder notarial?"
                {| currentSession := Some 0 |}
                (Scripted.rejectingPrompts Scripted.quotaExceeded
                   [Scripted.live 6100 6144])
                _ 1 Scripted.quotaExceeded
                eq_refl eq_refl eq_refl) as H.
  cbv zeta in H. destruct H as (H1 & H2 & _ & H4 & _).
  exact (conj H1 (conj H2 H4)).
Defined.

Lemma getChromeAiResponse_returns_prompt_response_witness :
  let svc := {| currentSession := None |} in
  let w := Scripted.ready [] in
  result (getChromeAiResponse "hola" svc w) = Fulfilled "Respuesta a: hola"%string /\
  exists session,
    fst (session_prompt session "hola" (host (ensureSession svc w)))
      = Fulfilled "Respuesta a: hola"%string.
Proof.
  cbv zeta. split; [reflexivity |].
  destruct (@getChromeAiResponse_returns_prompt_response
              Scripted.Browser Scripted.scriptedHost
              "hola" "Respuesta a: hola"
              {| currentSession := None |} (Scripted.ready []) eq_refl)
    as (session & _ & H & _).
  exists session. exact H.
Defined.

(** ** Warm-up *)

Section Warmup.

Context {W : Type} {browser : Host W}.

Lemma In_createCalls (o : LanguageModelCreateOptions)
  (settled : Settled LanguageModelSession) (tr : list Call) :
  In (Create o settled) tr -> In (o, settled) (createCalls tr).
Proof.
  induction tr as [| c tr IH]; cbn; [tauto |].
  intros [-> | Hin]; [left; reflexivity |].
  destruct c; cbn; auto.
Qed.

(** C10.  [warmupSession] resolves from every state: whatever
    [ensureSession] throws is caught and not thrown again.  When the
    [create] call it makes is rejected, the service holds no session
    afterwards, and the same holds when the [LanguageModel] global is
    missing. *)
Theorem warmupSession_never_rejects (svc : ChatService) (w : W) :
  let r := warmupSession svc w in
  result r = Fulfilled tt /\
  (forall e : JsError,
      In (Create sessionOptions (Rejected e)) (calls r) ->
      currentSession svc = None /\ currentSession (service r) = None) /\
  (currentSession svc = None ->
   hasLanguageModel w = false ->
   currentSession (service r) = None /\ calls r = []).
Proof.
  intros r. subst r. rewrite warmupSession_run. cbv zeta. cbn.
  split; [reflexivity |]. split.
  - intros e Hin. apply In_createCalls in Hin.
    destruct (currentSession svc) as [held |] eqn:Hc.
    + rewrite (ensureSession_held_no_create svc w Hc) in Hin. destruct Hin.
    + split; [reflexivity |]. revert Hin.
      rewrite (ensureSession_none svc w Hc).
      destruct (hasLanguageModel w); [| intros []].
      destruct (LanguageModel_create sessionOptions w) as [[created | e'] w'];
        cbn.
      * rewrite (ensureSession_held_no_create
                   {| currentSession := Some created |} w' (held := created)
                   eq_refl).
        intros [Heq | []]. discriminate.
      * intros _. exact Hc.
  - intros Hc Hlm. rewrite (ensureSession_none svc w Hc), Hlm. cbn.
    split; [exact Hc | reflexivity].
Qed.

End Warmup.

Lemma warmupSession_never_rejects_witness :
  let svc := {| currentSession := None |} in
  let w := Scripted.rejectingCreate Scripted.notSupported [] in
  let r := warmupSession svc w in
  In (Create sessionOptions (Rejected Scripted.notSupported)) (calls r) /\
  result r = Fulfilled tt /\
  currentSession (service r) = None.
Proof.
  cbv zeta.
  pose proof (@warmupSession_never_rejects
                Scripted.Browser Scripted.scriptedHost
                {| currentSession := None |}
                (Scripted.rejectingCreate Scripted.notSupported [])) as H.
  cbv zeta in H. destruct H as (Hres & Hcreate & _).
  assert (Hin : In (Create sessionOptions (Rejected Scripted.notSupported))
                  (calls (warmupSession {| currentSession := None |}
                            (Scripted.rejectingCreate Scripted.notSupported []))))
    by (left; reflexivity).
  split; [exact Hin |]. split; [exact Hres |].
  exact (proj2 (Hcreate Scripted.notSupported Hin)).
Defined.

(** ** The quota *)

(** C5 as stated fails: a session at 5530 of 6144 tokens has not reached its
    quota, and [ensureSession] replaces it. *)
Lemma ensureSession_replaces_before_quota_is_reached :
  ~ (forall (svc : ChatService) (w : Scripted.Browser)
            (held : LanguageModelSession),
        currentSession svc = Some held ->
        currentSession (service (ensureSession svc w)) <> Some held ->
        (inputQuota held w <=? inputUsage held w)%float = true).
Proof.
  intros claim.
  specialize (claim {| currentSession := Some 0 |}
                (Scripted.ready [Scripted.live 5530 6144]) 0 eq_refl).
  assert (Hreplaced :
            currentSession
              (service (ensureSession {| currentSession := Some 0 |}
                          (Scripted.ready [Scripted.live 5530 6144])))
            <> Some 0) by (vm_compute; discriminate).
  specialize (claim Hreplaced). vm_compute in claim. discriminate.
Qed.

Section Quota.

Context {W : Type} {browser : Host W}.

(** C5, amended.  With a session held, [ensureSession] replaces it, or calls
    anything on the browser at all, only when the usage has reached 90 per
    cent of the quota, as [refreshDue] computes it. *)
Theorem ensureSession_replaces_only_when_due
  (svc : ChatService) (w : W) (held : LanguageModelSession) :
  currentSession svc = Some held ->
  currentSession (service (ensureSession svc w)) <> Some held
  \/ calls (ensureSession svc w) <> [] ->
  refreshDue (inputUsage held w) (inputQuota held w) = true.
Proof.
  intros Hheld. rewrite (ensureSession_held svc w Hheld).
  destruct (refreshDue (inputUsage held w) (inputQuota held w));
    [reflexivity |].
  cbn. intros [Hrep | Hcalls]; congruence.
Qed.

End Quota.

Lemma ensureSession_replaces_only_when_due_witness :
  let svc := {| currentSession := Some 0 |} in
  let w := Scripted.ready [Scripted.live 5530 6144] in
  (currentSession svc = Some 0 /\
   currentSession (service (ensureSession svc w)) <> Some 0) /\
  refreshDue (inputUsage 0 w) (inputQuota 0 w) = true.
Proof.
  cbv zeta.
  assert (Hreplaced :
            currentSession
              (service (ensureSession {| currentSession := Some 0 |}
                          (Scripted.ready [Scripted.live 5530 6144])))
            <> Some 0) by (vm_compute; discriminate).
  split; [split; [reflexivity | exact Hreplaced] |].
  exact (@ensureSession_replaces_only_when_due
           Scripted.Browser Scripted.scriptedHost
           {| currentSession := Some 0 |}
           (Scripted.ready [Scripted.live 5530 6144]) 0
           eq_refl (or_introl Hreplaced)).
Defined.

(** ** Warm-up and the first message *)

(** C6 as stated fails: while [ngOnInit] waits for the availability check,
    the send guard is already open, and a message typed and sent then reaches
    [getChromeAiResponse] with no [warmupSession] call before it. *)
Lemma message_sent_before_warmup :
  ~ (forall events : list Event,
        warmupPrecedesMessages
          (invoked (run events (initialPage (Scripted.ready []))))).
Proof.
  intros claim.
  specialize (claim [NgOnInit; Input "hola"; SendMessage]
                [IsChromeAiAvailable; CheckChromeAiAvailability]
                "hola"%string [] eq_refl).
  cbn in claim. intuition discriminate.
Qed.

Section FirstMessage.

Context {W : Type} {browser : Host W}.

Lemma createCalls_app (l1 l2 : list Call) :
  createCalls (l1 ++ l2) = createCalls l1 ++ createCalls l2.
Proof.
  induction l1 as [| c l1 IH]; [reflexivity |].
  destruct c; cbn; rewrite IH; reflexivity.
Qed.

Lemma sendMessage_guarded (p : Page) : guarded p -> guarded (sendMessage p).
Proof.
  unfold guarded, sendMessage. intros Hp.
  destruct (_ || _); [exact Hp |].
  destruct (result (getChromeAiResponse _ _ _)); cbn; intros Hc;
    (destruct (Hp Hc) as [Hin | Hst];
     [left; apply in_or_app; left; exact Hin | right; exact Hst]).
Qed.

Lemma step_guarded (p : Page) (ev : Event) : guarded p -> guarded (step p ev).
Proof.
  intros Hp. destruct ev; unfold step.
  - destruct (stage p) eqn:Hst; try exact Hp.
    unfold guarded, ngOnInit. cbn.
    destruct (hasWindow (chrome p) && hasLanguageModel (chrome p)); cbn.
    + intros _. right. eexists. reflexivity.
    + discriminate.
  - destruct (stage p) as [| settled | settled |] eqn:Hst; try exact Hp.
    unfold guarded, afterAvailability, checkFailed.
    destruct settled as [availabilityResult | e]; cbn; [| discriminate].
    destruct (available availabilityResult); cbn.
    + intros _. left. apply in_or_app. right. left. reflexivity.
    + destruct (canDownload availabilityResult); cbn; discriminate.
  - destruct (stage p) as [| settled | settled |] eqn:Hst; try exact Hp.
    unfold guarded, afterWarmup, checkFailed.
    destruct settled as [[] | e]; cbn; [| discriminate].
    intros Hc. destruct (Hp Hc) as [Hin | [s Hs]]; [left; exact Hin |].
    congruence.
  - assert (Hgoal : guarded
                      (if interactive p
                       then withComponent p
                              (setSending (component p) text
                                 (isSending (component p))) (stage p)
                       else p)).
    { destruct (interactive p); [| exact Hp]. exact Hp. }
    destruct (stage p); exact Hgoal.
  - assert (Hgoal : guarded (if interactive p then sendMessage p else p)).
    { destruct (interactive p); [apply sendMessage_guarded |]; exact Hp. }
    destruct (stage p); exact Hgoal.
  - assert (Hgoal : guarded (saveSettled p)).
    { unfold saveSettled. destruct (pendingSaves p); exact Hp. }
    destruct (stage p); exact Hgoal.
  - assert (Hgoal : guarded (if interactive p then ngOnDestroy p else p)).
    { destruct (interactive p); [| exact Hp].
      unfold guarded, ngOnDestroy. cbn. intros Hc.
      destruct (Hp Hc) as [Hin | Hst];
        [left; apply in_or_app; left; exact Hin | right; exact Hst]. }
    destruct (stage p); exact Hgoal.
Qed.

Lemma run_guarded (events : list Event) (p : Page) :
  guarded p -> guarded (run events p).
Proof.
  revert p. induction events as [| ev events IH]; intros p Hp; [exact Hp |].
  cbn. apply IH. apply step_guarded. exact Hp.
Qed.

Lemma canSendMessage_available (c : ChatComponent) :
  canSendMessage c = true -> chromeAiAvailable c = true.
Proof.
  unfold canSendMessage. intros H.
  apply andb_true_iff in H. exact (proj2 H).
Qed.

(** C6, amended.  A [warmupSession] call in which [ensureSession] succeeds
    leaves a session held, so the [getChromeAiResponse] that follows calls
    [create] on nothing.  [ngOnInit] calls [warmupSession] when the
    availability check it awaits reports the model available; in every state
    the page reaches, a message can be sent only if [warmupSession] has been
    called or that check is still pending. *)
Theorem warmupSession_precedes_messages_after_availability_check :
  (forall (svc : ChatService) (w : W) (session : LanguageModelSession),
      result (ensureSession svc w) = Fulfilled session ->
      let r := warmupSession svc w in
      result r = Fulfilled tt /\
      currentSession (service r) = Some session /\
      forall userMessage : string,
        createCalls
          (calls (getChromeAiResponse userMessage (service r) (host r))) = []) /\
  (forall (p : Page) (availabilityResult : AvailabilityResult),
      stage p = AwaitingAvailability (Fulfilled availabilityResult) ->
      available availabilityResult = true ->
      invoked (step p AvailabilitySettled) = invoked p ++ [WarmupSession]) /\
  (forall (w : W) (events : list Event),
      let p := run events (initialPage w) in
      canSendMessage (component p) = true ->
      In WarmupSession (invoked p)
      \/ exists settled, stage p = AwaitingAvailability settled).
Proof.
  split; [| split].
  - intros svc w session Hready r. subst r.
    pose proof (ensureSession_fulfilled_current svc w Hready) as Hcur.
    rewrite warmupSession_run. cbv zeta. cbn [result service host].
    split; [reflexivity |]. split; [exact Hcur |].
    intros userMessage. rewrite getChromeAiResponse_run.
    destruct (hasLanguageModel (host (ensureSession svc w))); cbv zeta.
    + pose proof (ensureSession_held_no_create _ (host (ensureSession svc w)) Hcur)
        as Hnone.
      destruct (result (ensureSession (service (ensureSession svc w))
                          (host (ensureSession svc w)))) as [next | e].
      * destruct (session_prompt next userMessage _) as [[response | e] w'];
          cbn [calls];
          rewrite ?createCalls_app, ?destroySession_no_create, Hnone;
          reflexivity.
      * cbn [calls].
        rewrite createCalls_app, destroySession_no_create, Hnone. reflexivity.
    + cbn [calls]. apply destroySession_no_create.
  - intros p availabilityResult Hst Hav. unfold step. rewrite Hst.
    unfold afterAvailability. rewrite Hav. reflexivity.
  - intros w events p Hsend. subst p.
    apply (run_guarded events (p := initialPage w)).
    + unfold guarded. cbn. discriminate.
    + apply canSendMessage_available. exact Hsend.
Qed.

End FirstMessage.

Lemma warmupSession_precedes_messages_after_availability_check_witness :
  let w := Scripted.ready [] in
  let warmed := warmupSession {| currentSession := None |} w in
  let p := run [NgOnInit; AvailabilitySettled; WarmupSettled; Input "hola"]
               (initialPage w) in
  (result (ensureSession {| currentSession := None |} w) = Fulfilled 0 /\
   canSendMessage (component p) = true) /\
  currentSession (service warmed) = Some 0 /\
  createCalls
    (calls (getChromeAiResponse "hola" (service warmed) (host warmed))) = [] /\
  invoked (step (step (initialPage w) NgOnInit) AvailabilitySettled) =
    [IsChromeAiAvailable; CheckChromeAiAvailability; WarmupSession] /\
  (In WarmupSession (invoked p)
   \/ exists settled, stage p = AwaitingAvailability settled).
Proof.
  cbv zeta. split; [split; reflexivity |].
  pose proof (@warmupSession_precedes_messages_after_availability_check
                Scripted.Browser Scripted.scriptedHost) as (Hwarm & Hinit & Hsend).
  specialize (Hwarm {| currentSession := None |} (Scripted.ready []) 0 eq_refl).
  cbv zeta in Hwarm. destruct Hwarm as (_ & Hcur & Hnone).
  split; [exact Hcur |]. split; [exact (Hnone "hola"%string) |]. split.
  - exact (Hinit (step (initialPage (Scripted.ready [])) NgOnInit)
             {| available := true;
                status := "Chrome AI está listo para usar";
                canDownload := false |}
             eq_refl eq_refl).
  - exact (Hsend (Scripted.ready [])
             [NgOnInit; AvailabilitySettled; WarmupSettled; Input "hola"]
             eq_refl).
Defined.

(** ** The test of line 88 on token counts *)

Lemma usagesAgree_sound (n : nat) :
  forall u q : int,
    usagesAgree n u q = true ->
    (Z.of_nat n <= Uint63.to_Z u)%Z ->
    forall v : int,
      (Uint63.to_Z u - Z.of_nat n <= Uint63.to_Z v <= Uint63.to_Z u)%Z ->
      agrees v q = true.
Proof.
  induction n as [| n IH]; intros u q Hrow Hn v Hv.
  - cbn in Hrow. assert (v = u) as -> by (apply Uint63.to_Z_inj; lia).
    exact Hrow.
  - cbn [usagesAgree] in Hrow. apply andb_true_iff in Hrow as [Hu Hrest].
    destruct (Z.eq_dec (Uint63.to_Z v) (Uint63.to_Z u)) as [Heq | Hne].
    + apply Uint63.to_Z_inj in Heq. subst v. exact Hu.
    + assert (Hpred : Uint63.to_Z (u - 1)%uint63 = (Uint63.to_Z u - 1)%Z).
      { rewrite Uint63.sub_spec, Uint63.to_Z_1.
        pose proof (Uint63.to_Z_bounded u). apply Z.mod_small. lia. }
      apply (IH (u - 1)%uint63 q Hrest); lia.
Qed.

Lemma quotasAgree_sound (n width : nat) (top : int) :
  forall q : int,
    quotasAgree n width top q = true ->
    (Z.of_nat n <= Uint63.to_Z q)%Z ->
    forall q' : int,
      (Uint63.to_Z q - Z.of_nat n < Uint63.to_Z q' <= Uint63.to_Z q)%Z ->
      usagesAgree width top q' = true.
Proof.
  induction n as [| n IH]; intros q Hgrid Hn q' Hq'; [lia |].
  cbn [quotasAgree] in Hgrid. apply andb_true_iff in Hgrid as [Hq Hrest].
  destruct (Z.eq_dec (Uint63.to_Z q') (Uint63.to_Z q)) as [Heq | Hne].
  - apply Uint63.to_Z_inj in Heq. subst q'. exact Hq.
  - assert (Hpred : Uint63.to_Z (q - 1)%uint63 = (Uint63.to_Z q - 1)%Z).
    { rewrite Uint63.sub_spec, Uint63.to_Z_1.
      pose proof (Uint63.to_Z_bounded q). apply Z.mod_small. lia. }
    apply (IH (q - 1)%uint63 Hrest); lia.
Qed.

Lemma quotasAgree_to_limit :
  quotasAgree (Z.to_nat limit) (Z.to_nat limit)
    (Uint63.of_Z limit) (Uint63.of_Z limit) = true.
Proof. vm_compute. reflexivity. Qed.

(** X20.  On token counts up to [limit], the test of line 88 is the exact
    comparison of usage / quota with 9 / 10. *)
Lemma refreshDue_exact_ratio (u q : Z) :
  (0 < q <= limit)%Z ->
  (0 <= u <= limit)%Z ->
  refreshDue (tokens u) (tokens q) = (9 * q <=? 10 * u)%Z.
Proof.
  intros Hq Hu. unfold limit in *.
  assert (HwB : (Uint63.wB = 9223372036854775808)%Z) by reflexivity.
  assert (Hsmall : forall z, (0 <= z <= 100000)%Z ->
                             Uint63.to_Z (Uint63.of_Z z) = z).
  { intros z Hz. rewrite Uint63.of_Z_spec. apply Z.mod_small. lia. }
  assert (Hagree : agrees (Uint63.of_Z u) (Uint63.of_Z q) = true).
  { apply (usagesAgree_sound (Z.to_nat 10000) (Uint63.of_Z 10000)).
    - apply (quotasAgree_sound (Z.to_nat 10000) (Z.to_nat 10000)
               (Uint63.of_Z 10000) (Uint63.of_Z 10000)
               quotasAgree_to_limit);
        rewrite ?Hsmall, ?Z2Nat.id; lia.
    - rewrite Hsmall, Z2Nat.id; lia.
    - rewrite !Hsmall, Z2Nat.id; lia. }
  unfold agrees in Hagree. apply Bool.eqb_prop in Hagree.
  unfold tokens. rewrite Hagree.
  assert (H9 : Uint63.to_Z (9 * Uint63.of_Z q)%uint63 = (9 * q)%Z).
  { rewrite Uint63.mul_spec, (Hsmall q) by lia.
    change (Uint63.to_Z 9) with 9%Z. apply Z.mod_small. lia. }
  assert (H10 : Uint63.to_Z (10 * Uint63.of_Z u)%uint63 = (10 * u)%Z).
  { rewrite Uint63.mul_spec, (Hsmall u) by lia.
    change (Uint63.to_Z 10) with 10%Z. apply Z.mod_small. lia. }
  destruct (Uint63.lebP (9 * Uint63.of_Z q) (10 * Uint63.of_Z u)) as [Hle | Hgt];
    rewrite H9, H10 in *; symmetry.
  - apply Z.leb_le. exact Hle.
  - apply Z.leb_gt. lia.
Qed.

(** * Further properties *)

(** ** Sessions are neither leaked nor destroyed twice *)

Section Balance.

Context {W : Type} {browser : Host W}.








Lemma checkChromeAiAvailability_run (svc : ChatService) (w : W) :
  checkChromeAiAvailability svc w =
    if hasLanguageModel w then
      match LanguageModel_availability w with
      | (Fulfilled availabilityStatus, w') =>
          mkRun
            (Fulfilled
               (if String.eqb availabilityStatus "available" then
                  {| available := true;
                     status := "Chrome AI está listo para usar";
                     canDownload := false |}
                else if String.eqb availabilityStatus "downloadable"
                        || String.eqb availabilityStatus "downloading" then
                  {| available := false;
                     status := "El modelo necesita descargarse. Intenta crear una sesión para iniciar la descarga.";
                     canDownload := true |}
                else
                  {| available := false;
                     status := "Chrome AI no está disponible (status: "
                                 ++ availabilityStatus ++ ")";
                     canDownload := false |}))
            svc w' [Availability (Fulfilled availabilityStatus)]
      | (Rejected e, w') =>
          mkRun
            (Fulfilled
               {| available := false;
                  status := "Error verificando disponibilidad: " ++ errMessage e;
                  canDownload := false |})
            svc w' [Availability (Rejected e)]
      end
    else
      mkRun
        (Fulfilled
           {| available := false;
              status := "LanguageModel no encontrado. Usa Chrome Canary con flags habilitadas.";
              canDownload := false |})
        svc w [].
Proof.
  unfold checkChromeAiAvailability, tryCatch, bind, typeofLanguageModel,
    availability, ret.
  destruct (hasLanguageModel w) eqn:Hlm; cbn; rewrite ?Hlm; [| reflexivity].
  destruct (LanguageModel_availability w) as [[availabilityStatus | e] w'];
    cbn; [| reflexivity].
  destruct (String.eqb availabilityStatus "available"); cbn; [reflexivity |].
  destruct (String.eqb availabilityStatus "downloadable"
            || String.eqb availabilityStatus "downloading"); reflexivity.
Qed.





End Balance.

(** ** What one call of [ensureSession] can do *)

Section EnsureSession.

Context {W : Type} {browser : Host W}.

(** X2.  One call of [ensureSession] calls [create] at most once, [clone] at
    most once and [destroy] at most once, the latter only after a [clone];
    it never prompts a session and never asks for availability. *)
Theorem ensureSession_call_shape (svc : ChatService) (w : W) :
  let tr := calls (ensureSession svc w) in
  length (createCalls tr) <= 1 /\
  length (cloneCalls tr) <= 1 /\
  destroyCalls tr <= length (cloneCalls tr) /\
  promptCalls tr = [] /\
  (forall settled, ~ In (Availability settled) tr).
Proof.
  assert (Hheld : forall svc0 w0 held,
             currentSession svc0 = Some held ->
             let tr := calls (ensureSession svc0 w0) in
             createCalls tr = [] /\
             length (cloneCalls tr) <= 1 /\
             destroyCalls tr <= length (cloneCalls tr) /\
             promptCalls tr = [] /\
             (forall settled, ~ In (Availability settled) tr)).
  { intros svc0 w0 held Hc. cbv zeta.
    rewrite (ensureSession_held svc0 w0 Hc).
    destruct (refreshDue _ _).
    - destruct (session_clone held w0) as [[cloned | e] w']; cbn;
        repeat split; try lia; intros settled Hin; intuition discriminate.
    - cbn. repeat split; try lia. }
  cbv zeta. destruct (currentSession svc) as [held |] eqn:Hc.
  - destruct (Hheld svc w held Hc) as (H1 & H2 & H3 & H4 & H5).
    rewrite H1. repeat split; auto.
  - rewrite (ensureSession_none svc w Hc).
    destruct (hasLanguageModel w).
    + destruct (LanguageModel_create sessionOptions w) as [[created | e] w'].
      * destruct (Hheld {| currentSession := Some created |} w' created eq_refl)
          as (H1 & H2 & H3 & H4 & H5).
        cbn. rewrite H1. repeat split; auto.
        intros settled [H | H]; [discriminate | exact (H5 settled H)].
      * cbn. repeat split; try lia.
        intros settled Hin. intuition discriminate.
    + cbn. repeat split; try lia.
Qed.

(** X3.  [ensureSession] does not test the clone it makes.  When the clone
    is itself at 90 per cent or more (a clone carries the context of the
    session it copies), it is handed out all the same, and the next call
    starts by cloning again. *)
Theorem ensureSession_does_not_test_the_clone
  (svc : ChatService) (w w' : W) (old cloned : LanguageModelSession) :
  currentSession svc = Some old ->
  refreshDue (inputUsage old w) (inputQuota old w) = true ->
  session_clone old w = (Fulfilled cloned, w') ->
  refreshDue (inputUsage cloned (session_destroy old w'))
             (inputQuota cloned (session_destroy old w')) = true ->
  let r := ensureSession svc w in
  result r = Fulfilled cloned /\
  exists settled rest,
    calls (ensureSession (service r) (host r)) = Clone cloned settled :: rest.
Proof.
  intros Hheld Hdue Hclone Hstill r. subst r.
  rewrite (ensureSession_held svc w Hheld), Hdue, Hclone. cbn.
  split; [reflexivity |].
  rewrite (ensureSession_held {| currentSession := Some cloned |}
             (session_destroy old w') (held := cloned) eq_refl), Hstill.
  destruct (session_clone cloned (session_destroy old w'))
    as [[again | e] w''].
  - exists (Fulfilled again), [Destroy cloned]. reflexivity.
  - exists (Rejected e), []. reflexivity.
Qed.

(** X4.  When [clone()] rejects during a refresh, [ensureSession] rejects
    with that error and nothing else happens: the old session stays the
    current one and is not destroyed.  Inside [getChromeAiResponse] the
    [catch] then destroys it, no prompt is sent and the error is thrown
    on. *)
Theorem ensureSession_rejected_clone
  (svc : ChatService) (w w' : W) (old : LanguageModelSession) (e : JsError) :
  currentSession svc = Some old ->
  refreshDue (inputUsage old w) (inputQuota old w) = true ->
  session_clone old w = (Rejected e, w') ->
  ensureSession svc w = mkRun (Rejected e) svc w' [Clone old (Rejected e)] /\
  (forall userMessage : string,
      hasLanguageModel w = true ->
      getChromeAiResponse userMessage svc w =
        mkRun (Rejected e) {| currentSession := None |}
              (session_destroy old w')
              [Clone old (Rejected e); Destroy old]).
Proof.
  intros Hheld Hdue Hclone.
  assert (Hrun : ensureSession svc w
                 = mkRun (Rejected e) svc w' [Clone old (Rejected e)]).
  { rewrite (ensureSession_held svc w Hheld), Hdue, Hclone. reflexivity. }
  split; [exact Hrun |].
  intros userMessage Hlm.
  rewrite getChromeAiResponse_run, Hlm, Hrun. cbn.
  rewrite destroySession_run, Hheld. reflexivity.
Qed.

End EnsureSession.

Lemma ensureSession_does_not_test_the_clone_witness :
  let svc := {| currentSession := Some 0 |} in
  let w := Scripted.ready [Scripted.live 6000 6144] in
  let r := ensureSession svc w in
  (currentSession svc = Some 0 /\
   refreshDue (inputUsage 0 w) (inputQuota 0 w) = true /\
   inputUsage 1 (host r) = inputUsage 0 w) /\
  result r = Fulfilled 1 /\
  exists settled rest,
    calls (ensureSession (service r) (host r)) = Clone 1 settled :: rest.
Proof.
  cbv zeta. split; [repeat split |].
  exact (@ensureSession_does_not_test_the_clone
           Scripted.Browser Scripted.scriptedHost
           {| currentSession := Some 0 |}
           (Scripted.ready [Scripted.live 6000 6144])
           _ 0 1 eq_refl eq_refl eq_refl eq_refl).
Defined.

Lemma ensureSession_rejected_clone_witness :
  let svc := {| currentSession := Some 0 |} in
  let w := Scripted.rejectingClone Scripted.notSupported
             [Scripted.live 6000 6144] in
  (currentSession svc = Some 0 /\
   refreshDue (inputUsage 0 w) (inputQuota 0 w) = true /\
   session_clone 0 w = (Rejected Scripted.notSupported, w)) /\
  ensureSession svc w =
    mkRun (Rejected Scripted.notSupported) svc w
          [Clone 0 (Rejected Scripted.notSupported)].
Proof.
  cbv zeta. split; [repeat split |].
  exact (proj1 (@ensureSession_rejected_clone
                  Scripted.Browser Scripted.scriptedHost
                  {| currentSession := Some 0 |}
                  (Scripted.rejectingClone Scripted.notSupported
                     [Scripted.live 6000 6144])
                  _ 0 Scripted.notSupported eq_refl eq_refl eq_refl)).
Defined.

(** ** What [getChromeAiResponse] leaves behind *)

Section Response.

Context {W : Type} {browser : Host W}.

Lemma getChromeAiResponse_fulfilled_holds
  (userMessage response : string) (svc : ChatService) (w : W) :
  result (getChromeAiResponse userMessage svc w) = Fulfilled response ->
  currentSession (service (getChromeAiResponse userMessage svc w)) <> None.
Proof.
  rewrite getChromeAiResponse_run.
  destruct (hasLanguageModel w); cbv zeta; [| discriminate].
  destruct (result (ensureSession svc w)) as [session | e] eqn:Hready;
    [| discriminate].
  pose proof (ensureSession_fulfilled_current svc w Hready) as Hcur.
  destruct (session_prompt session userMessage _) as [[answer | e] w'];
    cbn; [| discriminate].
  intros _. rewrite Hcur. discriminate.
Qed.

(** X5.  After [getChromeAiResponse] the service holds a session exactly
    when the call resolved: a resolved call always keeps its session for the
    next message, and a rejected one, whatever failed (the missing global,
    [create], [clone] or [prompt]), never leaves one behind. *)
Theorem getChromeAiResponse_holds_session_iff_resolved
  (userMessage : string) (svc : ChatService) (w : W) :
  let r := getChromeAiResponse userMessage svc w in
  isFulfilled (result r) =
    match currentSession (service r) with Some _ => true | None => false end.
Proof.
  cbv zeta.
  destruct (result (getChromeAiResponse userMessage svc w))
    as [response | e] eqn:Hres; cbn.
  - pose proof (getChromeAiResponse_fulfilled_holds _ _ _ Hres) as Hcur.
    destruct (currentSession _); [reflexivity | congruence].
  - rewrite (getChromeAiResponse_rejected_no_session _ _ _ Hres). reflexivity.
Qed.

(** X6.  Where the browser has no [LanguageModel] global,
    [getChromeAiResponse] rejects with the fixed "not available" error
    without calling [create] or [prompt]; a session the service still held
    is destroyed on the way. *)
Theorem getChromeAiResponse_without_LanguageModel
  (userMessage : string) (svc : ChatService) (w : W) :
  hasLanguageModel w = false ->
  let r := getChromeAiResponse userMessage svc w in
  result r = Rejected notAvailableError /\
  currentSession (service r) = None /\
  createCalls (calls r) = [] /\
  promptCalls (calls r) = [] /\
  calls r =
    match currentSession svc with
    | Some held => [Destroy held]
    | None => []
    end.
Proof.
  intros Hlm r. subst r.
  rewrite getChromeAiResponse_run, Hlm. cbv zeta.
  rewrite destroySession_run.
  destruct (currentSession svc) as [held |] eqn:Hc; cbn; repeat split.
  exact Hc.
Qed.

(** X7.  [checkChromeAiAvailability] never rejects and never touches the
    session.  It reports [available] exactly when the global exists and
    [availability()] resolves with "available", and [canDownload] exactly
    when it resolves with "downloadable" or "downloading"; the two are never
    both set, the status text is never empty, and at most one call, never a
    [create], is made on the browser. *)
Theorem checkChromeAiAvailability_report (svc : ChatService) (w : W) :
  let r := checkChromeAiAvailability svc w in
  let answer :=
    match fst (LanguageModel_availability w) with
    | Fulfilled availabilityStatus => availabilityStatus
    | Rejected _ => EmptyString
    end in
  exists availabilityResult : AvailabilityResult,
    result r = Fulfilled availabilityResult /\
    service r = svc /\
    available availabilityResult =
      hasLanguageModel w && String.eqb answer "available" /\
    canDownload availabilityResult =
      hasLanguageModel w
      && (String.eqb answer "downloadable" || String.eqb answer "downloading") /\
    available availabilityResult && canDownload availabilityResult = false /\
    status availabilityResult <> EmptyString /\
    length (calls r) <= 1 /\
    createCalls (calls r) = [].
Proof.
  cbv zeta. rewrite checkChromeAiAvailability_run.
  destruct (hasLanguageModel w).
  - destruct (LanguageModel_availability w) as [[st | e] w']; cbn.
    + destruct (String.eqb st "available") eqn:Hav.
      * apply String.eqb_eq in Hav. subst st.
        eexists. repeat split; cbn; auto. discriminate.
      * destruct (String.eqb st "downloadable" || String.eqb st "downloading");
          eexists; repeat split; cbn; auto; discriminate.
    + eexists. repeat split; cbn; auto. discriminate.
  - cbn. eexists. repeat split; cbn; auto. discriminate.
Qed.

End Response.

Lemma getChromeAiResponse_without_LanguageModel_witness :
  let svc := {| currentSession := Some 0 |} in
  let w :=
    {| Scripted.window := true;
       Scripted.languageModel := false;
       Scripted.availabilityStatus := "unavailable";
       Scripted.sessions := [Scripted.live 120 6144];
       Scripted.createSettles := Rejected Scripted.notSupported;
       Scripted.cloneRejects := None;
       Scripted.promptRejects := None |} in
  let r := getChromeAiResponse "hola" svc w in
  hasLanguageModel w = false /\
  result r = Rejected notAvailableError /\
  currentSession (service r) = None /\
  calls r = [Destroy 0].
Proof.
  cbv zeta. split; [reflexivity |].
  pose proof (@getChromeAiResponse_without_LanguageModel
                Scripted.Browser Scripted.scriptedHost "hola"
                {| currentSession := Some 0 |}
                {| Scripted.window := true;
                   Scripted.languageModel := false;
                   Scripted.availabilityStatus := "unavailable";
                   Scripted.sessions := [Scripted.live 120 6144];
                   Scripted.createSettles := Rejected Scripted.notSupported;
                   Scripted.cloneRejects := None;
                   Scripted.promptRejects := None |}
                eq_refl) as H.
  cbv zeta in H. destruct H as (H1 & H2 & _ & _ & H5).
  exact (conj H1 (conj H2 H5)).
Defined.

(** ** How [ngOnInit] ends *)

Section Init.

Context {W : Type} {browser : Host W}.

(** X8.  Once [ngOnInit] has run through both of its [await]s it is done,
    and the send guard's [chromeAiAvailable] is set exactly when the window
    and the [LanguageModel] global exist and [availability()] resolved with
    "available".  In exactly that case [warmupSession] was invoked and the
    error text is empty; in every other case an error text is shown and
    [ngOnInit] has not caused any [create] call. *)
Theorem ngOnInit_outcome (w : W) :
  let p := run [NgOnInit; AvailabilitySettled; WarmupSettled] (initialPage w) in
  let basicCheck := hasWindow w && hasLanguageModel w in
  let ok :=
    basicCheck
    && match fst (LanguageModel_availability w) with
       | Fulfilled availabilityStatus => String.eqb availabilityStatus "available"
       | Rejected _ => false
       end in
  stage p = Completed /\
  chromeAiAvailable (component p) = ok /\
  invoked p =
    IsChromeAiAvailable
      :: (if basicCheck then [CheckChromeAiAvailability] else [])
      ++ (if ok then [WarmupSession] else []) /\
  String.eqb (errorMessage (component p)) "" = ok /\
  (if ok then True else createCalls (hostCalls p) = []).
Proof.
  cbv zeta. unfold run. cbn [fold_left].
  change (step (initialPage w) NgOnInit) with (ngOnInit (initialPage w)).
  unfold ngOnInit, isChromeAiAvailable. cbn.
  destruct (hasWindow w); cbn; [| repeat split].
  destruct (hasLanguageModel w) eqn:Hlm; cbn; [| repeat split].
  rewrite checkChromeAiAvailability_run, Hlm.
  destruct (LanguageModel_availability w) as [[st | e] w'] eqn:Hav; cbn.
  - destruct (String.eqb st "available"); cbn.
    + rewrite warmupSession_run. cbn. repeat split.
    + destruct (String.eqb st "downloadable" || String.eqb st "downloading");
        cbn; repeat split.
  - repeat split.
Qed.

End Init.

(** ** What can be sent *)

Section Sending.

Context {W : Type} {browser : Host W}.

Lemma dropAny_whiteSpace (p : list nat) (rest : list Ascii.ascii) :
  In p whiteSpace ->
  dropAny whiteSpace (map Ascii.ascii_of_nat p ++ rest) = Some rest /\
  1 <= length p.
Proof.
  unfold whiteSpace. cbn [In]. intros H.
  repeat (destruct H as [<- | H]; [split; [reflexivity | cbn; lia] |]).
  destruct H.
Qed.

Lemma dropLeading_blank (ws : list (list nat)) :
  Forall (fun p => In p whiteSpace) ws ->
  forall fuel : nat,
    length (whiteSpaceBytes ws) <= fuel ->
    dropLeading fuel whiteSpace (whiteSpaceBytes ws) = [].
Proof.
  induction 1 as [| p ws Hp Hws IH]; intros fuel Hfuel.
  - destruct fuel; reflexivity.
  - destruct (dropAny_whiteSpace (whiteSpaceBytes ws) Hp) as [Hdrop Hlen].
    unfold whiteSpaceBytes in *. cbn [map concat] in *.
    rewrite length_app, length_map in Hfuel.
    destruct fuel as [| fuel]; [lia |].
    cbn [dropLeading]. rewrite Hdrop. apply IH. lia.
Qed.

Lemma trim_blank (text : string) : blank text -> trim text = EmptyString.
Proof.
  intros (ws & Hws & Hbytes). unfold trim. rewrite Hbytes.
  rewrite (dropLeading_blank Hws (le_n (length (whiteSpaceBytes ws)))).
  reflexivity.
Qed.

Lemma sendMessage_closed (p : @Page W) :
  canSendMessage (component p) = false -> ChatComponent.sendMessage p = p.
Proof.
  intros Hc. unfold ChatComponent.sendMessage. rewrite Hc.
  rewrite orb_true_r. reflexivity.
Qed.

Lemma step_SendMessage (p : @Page W) :
  step p SendMessage = if interactive p then ChatComponent.sendMessage p else p.
Proof. unfold step. destruct (stage p); reflexivity. Qed.

(** X9.  A message of white space only is never sent: with such a text in
    the input box the send guard is closed, and neither the send button nor
    the Enter key changes anything or calls the service. *)
Theorem blank_input_is_not_sent (p : @Page W) :
  blank (userInput (component p)) ->
  canSendMessage (component p) = false /\
  step p SendMessage = p /\
  onEnterPress {| key := "Enter"; shiftKey := false |} p = (p, true).
Proof.
  intros Hblank.
  assert (Hguard : canSendMessage (component p) = false).
  { unfold canSendMessage. rewrite (trim_blank Hblank). reflexivity. }
  split; [exact Hguard |]. split.
  - rewrite step_SendMessage, (sendMessage_closed p Hguard).
    destruct (interactive p); reflexivity.
  - unfold onEnterPress. cbn. rewrite (sendMessage_closed p Hguard).
    reflexivity.
Qed.

(** Every message handed to [getChromeAiResponse] so far is non-empty. *)
Lemma sendMessage_nonempty (p : @Page W) :
  (forall m, In (GetChromeAiResponse m) (invoked p) -> m <> EmptyString) ->
  forall m, In (GetChromeAiResponse m) (invoked (ChatComponent.sendMessage p)) ->
            m <> EmptyString.
Proof.
  intros Hp m. unfold ChatComponent.sendMessage.
  destruct (String.eqb (trim (userInput (component p))) "") eqn:Hempty;
    cbn [orb]; [apply Hp |].
  destruct (negb (canSendMessage (component p))); [apply Hp |].
  apply String.eqb_neq in Hempty.
  destruct (result (getChromeAiResponse _ _ _)); cbn; intros Hin;
    apply in_app_or in Hin as [Hin | [Hin | []]];
    try (apply Hp; exact Hin); injection Hin as <-; exact Hempty.
Qed.

Lemma step_nonempty (p : @Page W) (ev : Event) :
  (forall m, In (GetChromeAiResponse m) (invoked p) -> m <> EmptyString) ->
  forall m, In (GetChromeAiResponse m) (invoked (step p ev)) -> m <> EmptyString.
Proof.
  intros Hp m.
  assert (Hgrow : forall l,
             (forall m', In (GetChromeAiResponse m') l -> False) ->
             In (GetChromeAiResponse m) (invoked p ++ l) -> m <> EmptyString).
  { intros l Hl Hin. apply in_app_or in Hin as [Hin | Hin];
      [apply Hp; exact Hin | destruct (Hl m Hin)]. }
  destruct ev; unfold step.
  - destruct (stage p); try apply Hp.
    unfold ngOnInit. cbn.
    destruct (hasWindow (chrome p) && hasLanguageModel (chrome p)); cbn.
    + rewrite <- app_assoc. apply Hgrow. cbn. intuition discriminate.
    + apply Hgrow. cbn. intuition discriminate.
  - destruct (stage p) as [| settled | settled |]; try apply Hp.
    unfold afterAvailability, checkFailed.
    destruct settled as [availabilityResult | e]; cbn; [| apply Hp].
    destruct (available availabilityResult); cbn.
    + apply Hgrow. cbn. intuition discriminate.
    + destruct (canDownload availabilityResult); apply Hp.
  - destruct (stage p) as [| settled | settled |]; try apply Hp.
    unfold afterWarmup, checkFailed. destruct settled; apply Hp.
  - assert (Hgoal : In (GetChromeAiResponse m)
                      (invoked
                         (if interactive p
                          then withComponent p
                                 (setSending (component p) text
                                    (isSending (component p))) (stage p)
                          else p)) -> m <> EmptyString).
    { destruct (interactive p); apply Hp. }
    destruct (stage p); exact Hgoal.
  - assert (Hgoal : In (GetChromeAiResponse m)
                      (invoked
                         (if interactive p
                          then ChatComponent.sendMessage p else p)) ->
                    m <> EmptyString).
    { destruct (interactive p);
        [apply sendMessage_nonempty; exact Hp | apply Hp]. }
    destruct (stage p); exact Hgoal.
  - assert (Hgoal : In (GetChromeAiResponse m) (invoked (saveSettled p)) ->
                    m <> EmptyString).
    { unfold saveSettled. destruct (pendingSaves p); apply Hp. }
    destruct (stage p); exact Hgoal.
  - assert (Hgoal : In (GetChromeAiResponse m)
                      (invoked (if interactive p then ngOnDestroy p else p)) ->
                    m <> EmptyString).
    { destruct (interactive p); [| apply Hp].
      unfold ngOnDestroy. cbn. apply Hgrow. cbn. intuition discriminate. }
    destruct (stage p); exact Hgoal.
Qed.

(** X10.  Whatever the user and the browser do, no empty message ever
    reaches the model: every [getChromeAiResponse] call the page makes
    carries a non-empty text. *)
Theorem no_empty_message_reaches_the_model
  (w : W) (events : list Event) (m : string) :
  In (GetChromeAiResponse m) (invoked (run events (initialPage w))) ->
  m <> EmptyString.
Proof.
  revert m.
  assert (Hgen : forall (evs : list Event) (p : @Page W),
             (forall m, In (GetChromeAiResponse m) (invoked p) ->
                        m <> EmptyString) ->
             forall m, In (GetChromeAiResponse m) (invoked (run evs p)) ->
                       m <> EmptyString).
  { induction evs as [| ev evs IH]; intros p Hp; [exact Hp |].
    cbn. apply IH. apply step_nonempty. exact Hp. }
  apply Hgen. cbn. intros m [].
Qed.

End Sending.

Lemma blank_input_is_not_sent_witness :
  let p := run [NgOnInit; Input "  
 "] (initialPage (Scripted.ready [])) in
  blank (userInput (component p)) /\
  chromeAiAvailable (component p) = true /\
  step p SendMessage = p.
Proof.
  cbv zeta.
  assert (Hblank : blank (userInput
                            (component
                               (run [NgOnInit; Input "  
 "] (initialPage (Scripted.ready [])))))).
  { exists [[32]; [32]; [10]; [32]]. split; [| reflexivity].
    repeat (apply Forall_cons;
            [unfold whiteSpace; cbn [In];
             repeat (first [left; reflexivity | right]) |]).
    apply Forall_nil. }
  split; [exact Hblank |]. split; [reflexivity |].
  exact (proj1 (proj2 (blank_input_is_not_sent _ Hblank))).
Defined.

Lemma no_empty_message_reaches_the_model_witness :
  In (GetChromeAiResponse "hola")
     (invoked (run [NgOnInit; Input " hola "; SendMessage]
                 (initialPage (Scripted.ready [])))) /\
  "hola"%string <> EmptyString.
Proof.
  assert (Hin : In (GetChromeAiResponse "hola")
                  (invoked (run [NgOnInit; Input " hola "; SendMessage]
                              (initialPage (Scripted.ready [])))))
    by (right; right; left; reflexivity).
  split; [exact Hin |].
  exact (@no_empty_message_reaches_the_model
           Scripted.Browser Scripted.scriptedHost (Scripted.ready [])
           [NgOnInit; Input " hola "; SendMessage] "hola" Hin).
Defined.

(** ** One generation at a time *)

Section InFlight.

Context {W : Type} {browser : Host W}.

Lemma sendMessage_inFlight (p : @Page W) :
  (pendingSaves p = 0
   \/ pendingSaves p = 1 /\ isSending (component p) = true) ->
  pendingSaves (ChatComponent.sendMessage p) = 0
  \/ pendingSaves (ChatComponent.sendMessage p) = 1
     /\ isSending (component (ChatComponent.sendMessage p)) = true.
Proof.
  intros Hp. unfold ChatComponent.sendMessage.
  destruct (String.eqb _ "" || _) eqn:Hguard; [exact Hp |].
  apply orb_false_iff in Hguard as [_ Hcan].
  apply negb_false_iff in Hcan. unfold canSendMessage in Hcan.
  apply andb_true_iff in Hcan as [Hcan _].
  apply andb_true_iff in Hcan as [_ Hidle]. apply negb_true_iff in Hidle.
  assert (Hzero : pendingSaves p = 0)
    by (destruct Hp as [H | [_ H]]; [exact H | congruence]).
  destruct (result (getChromeAiResponse _ _ _)); cbn; rewrite Hzero.
  - right. split; reflexivity.
  - left. reflexivity.
Qed.

Lemma step_inFlight (p : @Page W) (ev : Event) :
  (pendingSaves p = 0
   \/ pendingSaves p = 1 /\ isSending (component p) = true) ->
  pendingSaves (step p ev) = 0
  \/ pendingSaves (step p ev) = 1 /\ isSending (component (step p ev)) = true.
Proof.
  intros Hp. destruct ev; unfold step.
  - destruct (stage p); try exact Hp.
    unfold ngOnInit. cbn.
    destruct (hasWindow (chrome p) && hasLanguageModel (chrome p)); exact Hp.
  - destruct (stage p) as [| settled | settled |]; try exact Hp.
    unfold afterAvailability, checkFailed.
    destruct settled as [availabilityResult | e]; cbn; [| exact Hp].
    destruct (available availabilityResult); cbn; [exact Hp |].
    destruct (canDownload availabilityResult); exact Hp.
  - destruct (stage p) as [| settled | settled |]; try exact Hp.
    unfold afterWarmup, checkFailed. destruct settled; exact Hp.
  - assert (Hgoal :
              let q := if interactive p
                       then withComponent p
                              (setSending (component p) text
                                 (isSending (component p))) (stage p)
                       else p in
              pendingSaves q = 0
              \/ pendingSaves q = 1 /\ isSending (component q) = true).
    { cbv zeta. destruct (interactive p); exact Hp. }
    destruct (stage p); exact Hgoal.
  - assert (Hgoal :
              let q := if interactive p
                       then ChatComponent.sendMessage p else p in
              pendingSaves q = 0
              \/ pendingSaves q = 1 /\ isSending (component q) = true).
    { cbv zeta. destruct (interactive p);
        [apply sendMessage_inFlight |]; exact Hp. }
    destruct (stage p); exact Hgoal.
  - assert (Hgoal : pendingSaves (saveSettled p) = 0
                    \/ pendingSaves (saveSettled p) = 1
                       /\ isSending (component (saveSettled p)) = true).
    { unfold saveSettled. destruct (pendingSaves p) as [| n] eqn:Hn;
        [rewrite Hn; left; reflexivity |].
      cbn. left. destruct Hp as [H | [H _]]; lia. }
    destruct (stage p); exact Hgoal.
  - assert (Hgoal :
              let q := if interactive p then ngOnDestroy p else p in
              pendingSaves q = 0
              \/ pendingSaves q = 1 /\ isSending (component q) = true).
    { cbv zeta. destruct (interactive p); exact Hp. }
    destruct (stage p); exact Hgoal.
Qed.

(** X11.  At most one exchange is in flight.  In every state the page
    reaches, either no save to the backend is pending, or exactly one is and
    [isSending] is set; while it is pending, sending again changes nothing
    and calls nothing. *)
Theorem one_exchange_in_flight (w : W) (events : list Event) :
  let p := run events (initialPage w) in
  pendingSaves p = 0
  \/ pendingSaves p = 1
     /\ isSending (component p) = true
     /\ step p SendMessage = p.
Proof.
  cbv zeta.
  assert (Hgen : forall (evs : list Event) (p : @Page W),
             (pendingSaves p = 0
              \/ pendingSaves p = 1 /\ isSending (component p) = true) ->
             pendingSaves (run evs p) = 0
             \/ pendingSaves (run evs p) = 1
                /\ isSending (component (run evs p)) = true).
  { induction evs as [| ev evs IH]; intros p Hp; [exact Hp |].
    cbn. apply IH. apply step_inFlight. exact Hp. }
  destruct (Hgen events (initialPage w) (or_introl eq_refl))
    as [Hzero | [Hone Hsending]]; [left; exact Hzero | right].
  split; [exact Hone |]. split; [exact Hsending |].
  rewrite step_SendMessage.
  assert (Hclosed : canSendMessage (component (run events (initialPage w)))
                    = false).
  { unfold canSendMessage. rewrite Hsending. cbn.
    rewrite andb_false_r. reflexivity. }
  rewrite (sendMessage_closed _ Hclosed).
  destruct (interactive _); reflexivity.
Qed.

(** X12.  When the guard lets a message through, the input box is emptied
    and the trimmed text goes to [getChromeAiResponse].  If that resolves,
    [isSending] stays set, one save is pending and the service keeps its
    session; if it rejects, [isSending] is cleared at once, no save is
    started, the service holds no session, and the text is not put back. *)
Theorem sendMessage_outcome (p : @Page W) :
  canSendMessage (component p) = true ->
  let userMessage := trim (userInput (component p)) in
  let r := getChromeAiResponse userMessage (chat p) (chrome p) in
  let p' := ChatComponent.sendMessage p in
  userInput (component p') = EmptyString /\
  invoked p' = invoked p ++ [GetChromeAiResponse userMessage] /\
  hostCalls p' = hostCalls p ++ calls r /\
  chat p' = service r /\
  match result r with
  | Fulfilled _ =>
      isSending (component p') = true /\
      pendingSaves p' = S (pendingSaves p) /\
      currentSession (chat p') <> None
  | Rejected _ =>
      isSending (component p') = false /\
      pendingSaves p' = pendingSaves p /\
      currentSession (chat p') = None /\
      canSendMessage (component p') = false
  end.
Proof.
  intros Hcan. cbv zeta. unfold ChatComponent.sendMessage.
  assert (Hnonempty : String.eqb (trim (userInput (component p))) "" = false).
  { unfold canSendMessage in Hcan.
    apply andb_true_iff in Hcan as [Hcan _].
    apply andb_true_iff in Hcan as [Hne _].
    apply negb_true_iff in Hne. exact Hne. }
  rewrite Hnonempty, Hcan. cbn [orb negb].
  destruct (result (getChromeAiResponse (trim (userInput (component p)))
                      (chat p) (chrome p))) as [response | e] eqn:Hres; cbn.
  - repeat split.
    apply (getChromeAiResponse_fulfilled_holds _ _ _ Hres).
  - repeat split.
    apply (getChromeAiResponse_rejected_no_session _ _ _ Hres).
Qed.

(** X13.  The Enter key sends only without Shift: any other key, and Enter
    with Shift held, leave the page as it is and do not prevent the default
    action.  Plain Enter always prevents the default action, also when the
    guard is closed and nothing is sent. *)
Theorem onEnterPress_effect (event : KeyboardEvent) (p : @Page W) :
  (shiftKey event = true \/ key event <> "Enter"%string ->
   onEnterPress event p = (p, false)) /\
  (shiftKey event = false -> key event = "Enter"%string ->
   snd (onEnterPress event p) = true /\
   (canSendMessage (component p) = false -> fst (onEnterPress event p) = p)).
Proof.
  unfold onEnterPress. split.
  - intros [Hshift | Hkey].
    + rewrite Hshift, andb_false_r. reflexivity.
    + apply String.eqb_neq in Hkey. rewrite Hkey. reflexivity.
  - intros Hshift Hkey. rewrite Hshift, Hkey, String.eqb_refl. cbn.
    split; [reflexivity |]. apply sendMessage_closed.
Qed.

End InFlight.

Lemma sendMessage_outcome_witness :
  let p := run [NgOnInit; Input " hola "]
               (initialPage
                  (Scripted.rejectingPrompts Scripted.quotaExceeded [])) in
  let p' := ChatComponent.sendMessage p in
  canSendMessage (component p) = true /\
  userInput (component p') = EmptyString /\
  invoked p' = invoked p ++ [GetChromeAiResponse "hola"] /\
  isSending (component p') = false /\
  currentSession (chat p') = None.
Proof.
  cbv zeta. split; [reflexivity |].
  pose proof (@sendMessage_outcome
                Scripted.Browser Scripted.scriptedHost
                (run [NgOnInit; Input " hola "]
                   (initialPage
                      (Scripted.rejectingPrompts Scripted.quotaExceeded [])))
                eq_refl) as H.
  cbv zeta in H. destruct H as (H1 & H2 & _ & _ & H5).
  split; [exact H1 |]. split; [exact H2 |].
  change (isSending
            (component
               (ChatComponent.sendMessage
                  (run [NgOnInit; Input " hola "]
                     (initialPage
                        (Scripted.rejectingPrompts Scripted.quotaExceeded [])))))
          = false /\
          currentSession
            (chat
               (ChatComponent.sendMessage
                  (run [NgOnInit; Input " hola "]
                     (initialPage
                        (Scripted.rejectingPrompts Scripted.quotaExceeded [])))))
          = None).
  split; reflexivity.
Defined.

Lemma onEnterPress_effect_witness :
  let p := run [NgOnInit; Input "hola"] (initialPage (Scripted.ready [])) in
  onEnterPress {| key := "Enter"; shiftKey := true |} p = (p, false) /\
  snd (onEnterPress {| key := "Enter"; shiftKey := false |} p) = true.
Proof.
  cbv zeta. split.
  - exact (proj1 (@onEnterPress_effect
                    Scripted.Browser Scripted.scriptedHost
                    {| key := "Enter"; shiftKey := true |}
                    (run [NgOnInit; Input "hola"]
                       (initialPage (Scripted.ready []))))
             (or_introl eq_refl)).
  - exact (proj1 (proj2 (@onEnterPress_effect
                           Scripted.Browser Scripted.scriptedHost
                           {| key := "Enter"; shiftKey := false |}
                           (run [NgOnInit; Input "hola"]
                              (initialPage (Scripted.ready []))))
                    eq_refl eq_refl)).
Defined.

(** ** The backend calls *)

Section BackendFacts.

Variable baseUrl : string.
Context {W : Type} {browser : Host W}.

Lemma append_cancel_l (prefix a b : string) :
  (prefix ++ a)%string = (prefix ++ b)%string -> a = b.
Proof.
  induction prefix as [| ch prefix IH]; cbn; [auto |].
  intros H. injection H as H. exact (IH H).
Qed.


(** X15.  The history and clearing endpoints tell the sessions apart: two
    session ids give the same URL exactly when they are the same id, or both
    are missing or empty; an empty id is treated like a missing one and
    gives the plain endpoint. *)
Theorem chat_endpoints_identify_the_session (a b : option string) :
  let same :=
    (if Backend.truthy a then a else None)
    = (if Backend.truthy b then b else None) in
  (Backend.url (Backend.getHistory baseUrl a)
   = Backend.url (Backend.getHistory baseUrl b) <-> same) /\
  ((baseUrl ++ Backend.clearEndpoint a)%string
   = (baseUrl ++ Backend.clearEndpoint b)%string <-> same) /\
  Backend.historyEndpoint (Some EmptyString) = "/chat/history"%string /\
  Backend.historyEndpoint None = "/chat/history"%string /\
  Backend.clearEndpoint (Some EmptyString) = "/chat/clear"%string /\
  Backend.clearEndpoint None = "/chat/clear"%string.
Proof.
  cbv zeta. split; [| split; [| repeat split]].
  - cbn. unfold Backend.historyEndpoint. split.
    + intros H. apply append_cancel_l in H. revert H.
      destruct a as [[| ca a] |], b as [[| cb b] |]; cbn; intros H;
        try reflexivity; try discriminate.
      injection H as -> ->. reflexivity.
    + destruct a as [[| ca a] |], b as [[| cb b] |]; cbn; intros H;
        try reflexivity; try discriminate.
      injection H as -> ->. reflexivity.
  - unfold Backend.clearEndpoint. split.
    + intros H. apply append_cancel_l in H. revert H.
      destruct a as [[| ca a] |], b as [[| cb b] |]; cbn; intros H;
        try reflexivity; try discriminate.
      injection H as -> ->. reflexivity.
    + destruct a as [[| ca a] |], b as [[| cb b] |]; cbn; intros H;
        try reflexivity; try discriminate.
      injection H as -> ->. reflexivity.
Qed.

(** X16.  [clearChat] tears the AI session down when it is called, before
    any request is sent and whatever the session id: its effect on the
    service and the browser is that of [destroySession], so afterwards no
    session is held, and the next message starts with a [create]. *)
Theorem clearChat_destroys_at_call
  (sessionId : option string) (svc : ChatService) (w : W) :
  let r := Backend.clearChat baseUrl sessionId svc w in
  let d := destroySession svc w in
  service r = service d /\ host r = host d /\ calls r = calls d /\
  currentSession (service r) = None /\
  calls r =
    match currentSession svc with
    | Some held => [Destroy held]
    | None => []
    end /\
  forall userMessage : string,
    exists rest,
      calls (getChromeAiResponse userMessage (service r) (host r)) =
        if hasLanguageModel (host r)
        then Create sessionOptions
               (fst (LanguageModel_create sessionOptions (host r))) :: rest
        else [].
Proof.
  cbv zeta.
  assert (Hrun : Backend.clearChat baseUrl sessionId svc w =
                 mkRun (Fulfilled
                          (Backend.delete baseUrl
                             (Backend.clearEndpoint sessionId)))
                       (service (destroySession svc w))
                       (host (destroySession svc w))
                       (calls (destroySession svc w))).
  { unfold Backend.clearChat, bind, ret. rewrite destroySession_run.
    destruct (currentSession svc); reflexivity. }
  rewrite Hrun. cbn [service host calls].
  assert (Hnone : currentSession (service (destroySession svc w)) = None).
  { rewrite destroySession_run.
    destruct (currentSession svc) eqn:Hc; [reflexivity | exact Hc]. }
  repeat split; try exact Hnone.
  - rewrite destroySession_run. destruct (currentSession svc); reflexivity.
  - intros userMessage. rewrite getChromeAiResponse_run.
    destruct (hasLanguageModel (host (destroySession svc w))) eqn:Hlm;
      cbv zeta.
    + rewrite (ensureSession_none _ _ Hnone), Hlm.
      destruct (LanguageModel_create sessionOptions
                  (host (destroySession svc w))) as [[created | e] w'].
      * cbn.
        destruct (result (ensureSession {| currentSession := Some created |} w'))
          as [next | e].
        -- destruct (session_prompt next userMessage _) as [[answer | e] w''];
             cbn; eexists; reflexivity.
        -- cbn. eexists; reflexivity.
      * cbn. eexists; reflexivity.
    + exists []. cbn. rewrite destroySession_run, Hnone. reflexivity.
Qed.

End BackendFacts.

Lemma chat_endpoints_identify_the_session_witness :
  Backend.url (Backend.getHistory "http://localhost:8000/api/v1"
                 (Some EmptyString))
  = Backend.url (Backend.getHistory "http://localhost:8000/api/v1" None) /\
  Backend.url (Backend.getHistory "http://localhost:8000/api/v1"
                 (Some "s1"%string))
  <> Backend.url (Backend.getHistory "http://localhost:8000/api/v1"
                    (Some "s2"%string)).
Proof.
  pose proof (chat_endpoints_identify_the_session
                "http://localhost:8000/api/v1") as H.
  split.
  - exact (proj2 (proj1 (H (Some EmptyString) None)) eq_refl).
  - intros Heq.
    pose proof (proj1 (proj1 (H (Some "s1"%string) (Some "s2"%string))) Heq)
      as Hsame.
    discriminate Hsame.
Defined.

(** ** The conversation *)

Section ConversationFacts.

Import Conversation.

(** X17.  The conversation only grows by whole exchanges: after any number
    of saved exchanges the messages are the earlier ones followed, for each
    exchange in order, by the user's message and then the assistant's; the
    session id is the last non-empty one the backend sent, or the earlier
    one when there was none. *)
Theorem conversation_grows_by_exchanges
  (responses : list SendMessageResponse) (c : Signals) :
  let c' := savedAll responses c in
  messages c' =
    messages c
      ++ flat_map (fun r => [user_message r; assistant_message r]) responses /\
  length (messages c') = length (messages c) + 2 * length responses /\
  sessionId c' =
    fold_left (fun current r =>
                 if nonEmpty (saved_session_id r)
                 then saved_session_id r else current)
              responses (sessionId c) /\
  hasMessages c' = hasMessages c || Nat.ltb 0 (length responses).
Proof.
  cbv zeta. revert c.
  induction responses as [| r responses IH]; intros c.
  - cbn. rewrite app_nil_r, Nat.add_0_r, orb_false_r. repeat split.
  - unfold savedAll in *. cbn [fold_left flat_map].
    destruct (IH (saved r c)) as (Hm & Hl & Hs & Hh).
    split; [| split; [| split]].
    + rewrite Hm. cbn [saved messages]. rewrite <- app_assoc. reflexivity.
    + rewrite Hl. cbn [saved messages]. rewrite length_app. cbn. lia.
    + rewrite Hs. reflexivity.
    + rewrite Hh. unfold hasMessages. cbn [saved messages].
      rewrite length_app. cbn.
      rewrite Nat.add_comm. cbn. rewrite orb_true_r. reflexivity.
Qed.


(** X19.  A confirmed clearing asks for the current session's history to be
    deleted, or for the plain endpoint when the page knows no session; once
    the backend has answered, the page shows no message and knows no
    session, so clearing again goes to the plain endpoint. *)
Theorem clearing_forgets_the_session
  {W : Type} {browser : Host W} (baseUrl : string)
  (c : Signals) (svc : ChatService) (w : W) :
  let endpointOf (c0 : Signals) :=
    match result (clearConfirmed baseUrl c0 svc w) with
    | Fulfilled request => Backend.url request
    | Rejected _ => EmptyString
    end in
  endpointOf c =
    (if nonEmpty (sessionId c)
     then baseUrl ++ "/chat/clear?session_id=" ++ sessionId c
     else baseUrl ++ "/chat/clear")%string /\
  hasMessages (fst (cleared c)) = false /\
  sessionId (fst (cleared c)) = EmptyString /\
  endpointOf (fst (cleared c)) = (baseUrl ++ "/chat/clear")%string.
Proof.
  cbv zeta.
  assert (Hrun : forall sid,
             result (Backend.clearChat baseUrl sid svc w)
             = Fulfilled (Backend.delete baseUrl (Backend.clearEndpoint sid))).
  { intros sid. unfold Backend.clearChat, bind, ret.
    rewrite destroySession_run. destruct (currentSession svc); reflexivity. }
  unfold clearConfirmed. rewrite !Hrun. cbn.
  repeat split.
  destruct (sessionId c) as [| ch rest]; reflexivity.
Qed.

End ConversationFacts.

Lemma refreshDue_exact_ratio_witness :
  ((0 < 6144 <= limit)%Z /\ (0 <= 5530 <= limit)%Z) /\
  refreshDue (tokens 5530) (tokens 6144) = (9 * 6144 <=? 10 * 5530)%Z.
Proof.
  assert (Hq : (0 < 6144 <= limit)%Z) by (unfold limit; lia).
  assert (Hu : (0 <= 5530 <= limit)%Z) by (unfold limit; lia).
  split; [split; assumption |].
  exact (refreshDue_exact_ratio Hq Hu).
Defined.
